(** * react-scroll-snap-momentum: gesture classifier, adaptive throttle
      and section navigation

    A shallow embedding of the three hooks of the library:

    - [useTouchpadDetection]  (momentum / inertia classifier),
    - [useScrollThrottle]     (two-tier rate limiter),
    - [useScrollContainer]    (vertical section navigation with its wheel
      and touch handlers, safety timeout and stuck-state watchdog).

    Modelling conventions.
    - JavaScript numbers are modelled by [Z]: wheel deltas, touch
      coordinates and [Date.now()] milliseconds are taken to be integers.
    - Every [useRef] cell becomes a field of an explicit state record that
      the handlers take and return.
    - [Date.now()] is an argument [now] of each handler; the several reads
      of the clock inside one synchronous handler see the same instant.
    - React state [currentSection] is a field of the same record: a
      [setCurrentSection] is visible to the next event that is handled.
    - Calls to host capabilities ([scrollIntoView], [updateURL]) are
      appended to a log kept in the state. *)

From Stdlib Require Import ZArith Bool List Lia QArith.
From stdpp Require Import base option list gmap.
Import ListNotations.

Local Open Scope Z_scope.

(* ================================================================== *)
(** ** useTouchpadDetection *)
(* ================================================================== *)

Module TouchpadDetection.

(** [UseTouchpadDetectionProps] (the [debug] switch only logs). *)
Record Props := {
  minTimeGap : Z;
  minDelta : Z
}.

(** Default parameter values of the hook. *)
Definition defaults : Props := {| minTimeGap := 1500; minDelta := 4 |}.

(** The three tracking refs [lastDeltaRef], [lastDirectionRef],
    [lastEventTimeRef]. *)
Record Refs := {
  lastDeltaRef : Z;
  lastDirectionRef : Z;
  lastEventTimeRef : Z
}.

(** [useRef(0)] three times. *)
Definition initial : Refs :=
  {| lastDeltaRef := 0; lastDirectionRef := 0; lastEventTimeRef := 0 |}.

(** [detectInertia(e)]: [deltaY] is [e.deltaY], [now] is [Date.now()].
    Returns [isMomentumScroll] and the refs after the call. *)
Definition detectInertia (p : Props) (deltaY now : Z) (r : Refs)
  : bool * Refs :=
  let currentDelta := Z.abs deltaY in
  let currentDirection := Z.sgn deltaY in
  let timeSinceLastEvent := now - lastEventTimeRef r in
  let isTimeTooQuick := timeSinceLastEvent <? minTimeGap p in
  let isSameDirection :=
    negb (lastDirectionRef r =? 0)
    && (currentDirection =? lastDirectionRef r) in
  let isDeltaNotIncreasing := currentDelta <=? lastDeltaRef r in
  let isMomentumScroll :=
    isTimeTooQuick && isSameDirection && isDeltaNotIncreasing in
  (isMomentumScroll,
   {| lastDeltaRef := currentDelta;
      lastDirectionRef := currentDirection;
      lastEventTimeRef := now |}).

(** [isValidDelta(deltaY)]. *)
Definition isValidDelta (p : Props) (deltaY : Z) : bool :=
  let currentDelta := Z.abs deltaY in
  currentDelta >=? minDelta p.

(** One classifier instance fed a stream of wheel samples
    [(deltaY, now)], oldest first: the labels in order and the refs
    after the last call. *)
Fixpoint feed (p : Props) (samples : list (Z * Z)) (r : Refs)
  : list bool * Refs :=
  match samples with
  | [] => ([], r)
  | (deltaY, now) :: rest =>
      let '(label, r1) := detectInertia p deltaY now r in
      let '(labels, r2) := feed p rest r1 in
      (label :: labels, r2)
  end.

(** The refs that a sample leaves behind. *)
Definition refs_of_sample (s : Z * Z) : Refs :=
  {| lastDeltaRef := Z.abs (fst s);
     lastDirectionRef := Z.sgn (fst s);
     lastEventTimeRef := snd s |}.

End TouchpadDetection.

(* ================================================================== *)
(** ** useScrollThrottle *)
(* ================================================================== *)

Module ScrollThrottle.

(** [UseScrollThrottleProps]. *)
Record Props := {
  normalThrottle : Z;
  momentumThrottle : Z
}.

Definition defaults : Props :=
  {| normalThrottle := 400; momentumThrottle := 1800 |}.

(** [lastThrottleTimeRef]. *)
Record Refs := { lastThrottleTimeRef : Z }.

Definition initial : Refs := {| lastThrottleTimeRef := 0 |}.

Inductive ThrottleType := momentum | normal.

(** [ThrottleStatus]. *)
Record ThrottleStatus := {
  status_isThrottled : bool;
  remainingTime : Z;
  effectiveThrottle : Z;
  timeSinceLastThrottle : Z;
  throttleType : ThrottleType
}.

(** [isThrottled(isMomentumScroll)] at clock reading [now]. *)
Definition isThrottled (p : Props) (isMomentumScroll : bool) (now : Z)
    (r : Refs) : bool :=
  let effectiveThrottle :=
    if isMomentumScroll then momentumThrottle p else normalThrottle p in
  let timeSinceLastThrottle := now - lastThrottleTimeRef r in
  let throttled := timeSinceLastThrottle <? effectiveThrottle in
  throttled.

(** [updateThrottle()]. *)
Definition updateThrottle (now : Z) (r : Refs) : Refs :=
  {| lastThrottleTimeRef := now |}.

(** [getThrottleStatus(isMomentumScroll)]. *)
Definition getThrottleStatus (p : Props) (isMomentumScroll : bool)
    (now : Z) (r : Refs) : ThrottleStatus :=
  let effectiveThrottle :=
    if isMomentumScroll then momentumThrottle p else normalThrottle p in
  let timeSinceLastThrottle := now - lastThrottleTimeRef r in
  let remainingTime := Z.max 0 (effectiveThrottle - timeSinceLastThrottle) in
  {| status_isThrottled := remainingTime >? 0;
     remainingTime := remainingTime;
     effectiveThrottle := effectiveThrottle;
     timeSinceLastThrottle := timeSinceLastThrottle;
     throttleType := if isMomentumScroll then momentum else normal |}.

(** [reset()]. *)
Definition reset (r : Refs) : Refs := {| lastThrottleTimeRef := 0 |}.

End ScrollThrottle.

(* ================================================================== *)
(** ** useScrollContainer (vertical sections) *)
(* ================================================================== *)

Module ScrollContainer.

(** An opaque DOM element handle. *)
Definition Element := nat.

Inductive Behavior := smooth | instant.

(** What the hook asks of its host.  [e.preventDefault()] acts on the
    event object only and is not recorded. *)
Inductive Effect :=
| ScrollIntoView (target : Element) (behavior : Behavior)
| UpdateURL (sectionIndex : Z).

(** [UseScrollContainerProps] together with the parameters that the hook
    passes to [useTouchpadDetection] and [useScrollThrottle]. *)
Record Config := {
  totalSections : Z;
  detection : TouchpadDetection.Props;
  throttle : ScrollThrottle.Props
}.

(** The parameters written in [useScrollContainer]. *)
Definition useScrollContainer (total : Z) : Config :=
  {| totalSections := total;
     detection := {| TouchpadDetection.minTimeGap := 1500;
                     TouchpadDetection.minDelta := 4 |};
     throttle := {| ScrollThrottle.normalThrottle := 600;
                    ScrollThrottle.momentumThrottle := 1200 |} |}.

Definition MIN_TOUCH_DISTANCE : Z := 50.
Definition MAX_TOUCH_TIME : Z := 800.
Definition SAFETY_TIMEOUT : Z := 2000.
Definition STUCK_THRESHOLD : Z := 5000.

(** All the mutable cells of one mounted hook.
    - [sectionRefs]: the array [sectionRefs.current]; an index bound to
      [null] or never assigned has no entry.
    - [scrollTimeoutRef]: [Some due] is a safety timer armed to fire at
      [due]; [None] is [null] or a handle whose timer has already run or
      has been cancelled (clearing such a handle does nothing). *)
Record State := {
  currentSection : Z;
  isScrollingRef : bool;
  scrollTimeoutRef : option Z;
  lastScrollTimeRef : Z;
  sectionRefs : gmap Z Element;
  touchStartYRef : Z;
  touchStartTimeRef : Z;
  isTouchingRef : bool;
  detectionRefs : TouchpadDetection.Refs;
  throttleRefs : ScrollThrottle.Refs;
  effects : list Effect
}.

(** The state right after mount, with the host's elements attached. *)
Definition mount (refs : gmap Z Element) : State :=
  {| currentSection := 0;
     isScrollingRef := false;
     scrollTimeoutRef := None;
     lastScrollTimeRef := 0;
     sectionRefs := refs;
     touchStartYRef := 0;
     touchStartTimeRef := 0;
     isTouchingRef := false;
     detectionRefs := TouchpadDetection.initial;
     throttleRefs := ScrollThrottle.initial;
     effects := [] |}.

(** *** Field updates *)

Definition set_detectionRefs (d : TouchpadDetection.Refs) (s : State) :=
  {| currentSection := currentSection s;
     isScrollingRef := isScrollingRef s;
     scrollTimeoutRef := scrollTimeoutRef s;
     lastScrollTimeRef := lastScrollTimeRef s;
     sectionRefs := sectionRefs s;
     touchStartYRef := touchStartYRef s;
     touchStartTimeRef := touchStartTimeRef s;
     isTouchingRef := isTouchingRef s;
     detectionRefs := d;
     throttleRefs := throttleRefs s;
     effects := effects s |}.

Definition set_isTouchingRef (b : bool) (s : State) :=
  {| currentSection := currentSection s;
     isScrollingRef := isScrollingRef s;
     scrollTimeoutRef := scrollTimeoutRef s;
     lastScrollTimeRef := lastScrollTimeRef s;
     sectionRefs := sectionRefs s;
     touchStartYRef := touchStartYRef s;
     touchStartTimeRef := touchStartTimeRef s;
     isTouchingRef := b;
     detectionRefs := detectionRefs s;
     throttleRefs := throttleRefs s;
     effects := effects s |}.

(** Clears the lock, and the safety timer when [clearTimer] is set. *)
Definition unlock (clearTimer : bool) (s : State) :=
  {| currentSection := currentSection s;
     isScrollingRef := false;
     scrollTimeoutRef := if clearTimer then None else scrollTimeoutRef s;
     lastScrollTimeRef := lastScrollTimeRef s;
     sectionRefs := sectionRefs s;
     touchStartYRef := touchStartYRef s;
     touchStartTimeRef := touchStartTimeRef s;
     isTouchingRef := isTouchingRef s;
     detectionRefs := detectionRefs s;
     throttleRefs := throttleRefs s;
     effects := effects s |}.

(** [scrollIntoView] on an element followed by [setCurrentSection]. *)
Definition showSection (target : Element) (behavior : Behavior)
    (sectionIndex : Z) (s : State) :=
  {| currentSection := sectionIndex;
     isScrollingRef := isScrollingRef s;
     scrollTimeoutRef := scrollTimeoutRef s;
     lastScrollTimeRef := lastScrollTimeRef s;
     sectionRefs := sectionRefs s;
     touchStartYRef := touchStartYRef s;
     touchStartTimeRef := touchStartTimeRef s;
     isTouchingRef := isTouchingRef s;
     detectionRefs := detectionRefs s;
     throttleRefs := throttleRefs s;
     effects := effects s ++ [ScrollIntoView target behavior] |}.

(** *** Navigation entry points *)

(** [scrollToSection(sectionIndex)].  The previous safety timer, if any,
    is cleared and a new one armed for [now + 2000]. *)
Definition scrollToSection (sectionIndex now : Z) (s : State) : State :=
  match sectionRefs s !! sectionIndex with
  | Some targetElement =>
      {| currentSection := sectionIndex;
         isScrollingRef := true;
         scrollTimeoutRef := Some (now + SAFETY_TIMEOUT);
         lastScrollTimeRef := now;
         sectionRefs := sectionRefs s;
         touchStartYRef := touchStartYRef s;
         touchStartTimeRef := touchStartTimeRef s;
         isTouchingRef := isTouchingRef s;
         detectionRefs := detectionRefs s;
         throttleRefs := ScrollThrottle.updateThrottle now (throttleRefs s);
         effects := effects s ++ [ScrollIntoView targetElement smooth;
                                  UpdateURL sectionIndex] |}
  | None => s
  end.

(** [handlePopStateNavigation(sectionIndex)]. *)
Definition handlePopStateNavigation (sectionIndex : Z) (s : State) : State :=
  match sectionRefs s !! sectionIndex with
  | Some targetElement => showSection targetElement smooth sectionIndex s
  | None => s
  end.

(** [handleURLSectionChange(sectionIndex, behavior)]. *)
Definition handleURLSectionChange (sectionIndex : Z) (behavior : Behavior)
    (s : State) : State :=
  match sectionRefs s !! sectionIndex with
  | Some targetElement => showSection targetElement behavior sectionIndex s
  | None => s
  end.

(** *** Completion signals *)

(** One [IntersectionObserverEntry]. *)
Record Entry := {
  isIntersecting : bool;
  intersectionRatio : Q
}.

(** [entry.isIntersecting && entry.intersectionRatio > 0.5]. *)
Definition inView (e : Entry) : bool :=
  isIntersecting e && negb (Qle_bool (intersectionRatio e) (1 # 2)).

(** The observer callback: [entries.forEach(...)]. *)
Definition observerCallback (entries : list Entry) (s : State) : State :=
  fold_left (fun acc e => if inView e then unlock true acc else acc)
            entries s.

(** The callback given to [setTimeout(..., 2000)]. *)
Definition safetyTimeout (s : State) : State := unlock false s.

(** The cleanup of the observer effect: [observer.disconnect()], then
    [clearTimeout] of the safety timer when the ref holds one.  The ref
    keeps the cancelled handle and the lock is left as it is.  React runs
    this cleanup whenever [totalSections] differs from the previous
    render, before the effect subscribes again, and at unmount. *)
Definition observerCleanup (s : State) : State :=
  {| currentSection := currentSection s;
     isScrollingRef := isScrollingRef s;
     scrollTimeoutRef := None;
     lastScrollTimeRef := lastScrollTimeRef s;
     sectionRefs := sectionRefs s;
     touchStartYRef := touchStartYRef s;
     touchStartTimeRef := touchStartTimeRef s;
     isTouchingRef := isTouchingRef s;
     detectionRefs := detectionRefs s;
     throttleRefs := throttleRefs s;
     effects := effects s |}.

(** [checkStuckState()]. *)
Definition checkStuckState (now : Z) (s : State) : State :=
  if isScrollingRef s && (now - lastScrollTimeRef s >? STUCK_THRESHOLD)
  then unlock true s
  else s.

(** *** Wheel *)

(** [throttledWheelHandler(e)] with [deltaY = e.deltaY]. *)
Definition throttledWheelHandler (c : Config) (deltaY now : Z) (s : State)
  : State :=
  let '(isMomentumScroll, d) :=
    TouchpadDetection.detectInertia (detection c) deltaY now
                                    (detectionRefs s) in
  let s := set_detectionRefs d s in
  if negb (TouchpadDetection.isValidDelta (detection c) deltaY) then s
  else if isScrollingRef s then s
  else if ScrollThrottle.isThrottled (throttle c) isMomentumScroll now
                                     (throttleRefs s) then s
  else
    let direction := if deltaY >? 0 then 1 else -1 in
    let nextSection := currentSection s + direction in
    if (nextSection >=? 0) && (nextSection <? totalSections c)
    then scrollToSection nextSection now s
    else s.

(** *** Touch *)

(** [handleTouchStart(e)] with [clientY = e.touches[0].clientY]. *)
Definition handleTouchStart (clientY now : Z) (s : State) : State :=
  if isScrollingRef s then s
  else
    {| currentSection := currentSection s;
       isScrollingRef := isScrollingRef s;
       scrollTimeoutRef := scrollTimeoutRef s;
       lastScrollTimeRef := lastScrollTimeRef s;
       sectionRefs := sectionRefs s;
       touchStartYRef := clientY;
       touchStartTimeRef := now;
       isTouchingRef := true;
       detectionRefs := detectionRefs s;
       throttleRefs := throttleRefs s;
       effects := effects s |}.

(** [handleTouchMove(e)] only calls [e.preventDefault()]. *)
Definition handleTouchMove (s : State) : State := s.

(** [handleTouchEnd(e)] with [touchEndY = e.changedTouches[0].clientY]. *)
Definition handleTouchEnd (c : Config) (touchEndY now : Z) (s : State)
  : State :=
  if negb (isTouchingRef s) then s
  else
    let touchEndTime := now in
    let deltaY := touchStartYRef s - touchEndY in
    let deltaTime := touchEndTime - touchStartTimeRef s in
    let distance := Z.abs deltaY in
    let s := set_isTouchingRef false s in
    if distance <? MIN_TOUCH_DISTANCE then s
    else if deltaTime >? MAX_TOUCH_TIME then s
    else if ScrollThrottle.isThrottled (throttle c) false now
                                       (throttleRefs s) then s
    else
      let direction := if deltaY >? 0 then 1 else -1 in
      let nextSection := currentSection s + direction in
      if (nextSection >=? 0) && (nextSection <? totalSections c)
      then scrollToSection nextSection now s
      else s.

(** [handleTouchCancel()]. *)
Definition handleTouchCancel (s : State) : State :=
  set_isTouchingRef false s.

(** *** Event delivery *)

(** Everything that can call into a mounted hook.  [EffectCleanup] is
    React re-running the observer effect because the host rendered the
    hook with another [totalSections]; the events that follow it are to be
    delivered under the new configuration, which [handle] and [run] take
    as an argument. *)
Inductive Event :=
| Wheel (deltaY : Z)
| TouchStart (clientY : Z)
| TouchMove
| TouchEnd (clientY : Z)
| TouchCancel
| Observed (entries : list Entry)
| WatchdogTick
| CallScrollToSection (sectionIndex : Z)
| PopState (sectionIndex : Z)
| URLSectionChange (sectionIndex : Z) (behavior : Behavior)
| EffectCleanup.

Definition handle (c : Config) (ev : Event) (now : Z) (s : State) : State :=
  match ev with
  | Wheel deltaY => throttledWheelHandler c deltaY now s
  | TouchStart y => handleTouchStart y now s
  | TouchMove => handleTouchMove s
  | TouchEnd y => handleTouchEnd c y now s
  | TouchCancel => handleTouchCancel s
  | Observed entries => observerCallback entries s
  | WatchdogTick => checkStuckState now s
  | CallScrollToSection i => scrollToSection i now s
  | PopState i => handlePopStateNavigation i s
  | URLSectionChange i b => handleURLSectionChange i b s
  | EffectCleanup => observerCleanup s
  end.

(** The timer queue: an armed safety timer whose due instant has been
    reached runs before a later event is handled. *)
Definition fireDueTimer (now : Z) (s : State) : State :=
  match scrollTimeoutRef s with
  | Some due =>
      if due <=? now then unlock true (safetyTimeout s) else s
  | None => s
  end.

(** Delivers one event at instant [now]. *)
Definition deliver (c : Config) (tev : Z * Event) (s : State) : State :=
  handle c (snd tev) (fst tev) (fireDueTimer (fst tev) s).

(** Delivers a trace of timestamped events, oldest first, under the props
    [c]. *)
Definition run (c : Config) (trace : list (Z * Event)) (s : State) : State :=
  fold_left (fun acc tev => deliver c tev acc) trace s.

(** *** Hosts and observations *)

(** The host renders its sections in order and binds the element of the
    [i]-th one to [sectionRefs.current[i]], counting from [first]. *)
Fixpoint attachFrom (first : Z) (elements : list Element) : gmap Z Element :=
  match elements with
  | [] => ∅
  | el :: rest => <[first := el]> (attachFrom (first + 1) rest)
  end.

Definition attach (elements : list Element) : gmap Z Element :=
  attachFrom 0 elements.

(** The label that the wheel handler obtains from the classifier for an
    event handled in state [s]. *)
Definition wheelLabel (c : Config) (deltaY now : Z) (s : State) : bool :=
  fst (TouchpadDetection.detectInertia (detection c) deltaY now
                                       (detectionRefs s)).

(** The state in which the wheel handler takes its decisions: the
    classifier has already consumed the event. *)
Definition classified (c : Config) (deltaY now : Z) (s : State) : State :=
  set_detectionRefs
    (snd (TouchpadDetection.detectInertia (detection c) deltaY now
                                          (detectionRefs s))) s.

(** [direction] as both gesture handlers compute it. *)
Definition directionOf (delta : Z) : Z := if delta >? 0 then 1 else -1.

(** The navigation state of the specification together with the throttle
    timestamp: what a gesture must leave alone when it is rejected. *)
Definition navigation (s : State)
  : Z * bool * Z * option Z * ScrollThrottle.Refs * list Effect :=
  (currentSection s, isScrollingRef s, lastScrollTimeRef s,
   scrollTimeoutRef s, throttleRefs s, effects s).

(** Number of accepted transitions: every one asks the host for exactly
    one URL update. *)
Definition accepted (s : State) : nat :=
  length (List.filter
            (fun e => match e with UpdateURL _ => true | _ => false end)
            (effects s)).

End ScrollContainer.

(* ================================================================== *)
(** ** Concrete hosts and traces *)
(* ================================================================== *)

Module Scenario.
Import ScrollContainer.

(** A page of five sections, each with its element attached. *)
Definition fiveSections : gmap Z Element :=
  attach [10; 11; 12; 13; 14]%nat.

(** A page of four sections. *)
Definition fourSections : gmap Z Element :=
  attach [10; 11; 12; 13]%nat.

(** The durations that the specification's scenarios use (the horizontal
    hook and the earlier vertical hook pass these to the throttle). *)
Definition cascadeConfig (total : Z) : Config :=
  {| totalSections := total;
     detection := {| TouchpadDetection.minTimeGap := 1500;
                     TouchpadDetection.minDelta := 4 |};
     throttle := {| ScrollThrottle.normalThrottle := 600;
                    ScrollThrottle.momentumThrottle := 1800 |} |}.

(** One trackpad swipe with its inertia tail, then a later swipe; the
    instants are offsets from [start]. *)
Definition wheelTrace (start : Z) : list (Z * Event) :=
  [ (start, Wheel 50); (start + 20, Wheel 40); (start + 45, Wheel 28);
    (start + 5000, Wheel 10) ].

(** A finger goes down on an idle page at 1000; at 1100 a navigation dot
    calls [scrollToSection(1)]: the page is now in transition with the
    touch stream still active. *)
Definition touchDuringTransition : State :=
  run (useScrollContainer 5)
      [ (1000, TouchStart 300); (1100, CallScrollToSection 1) ]
      (mount fiveSections).

(** A swipe has just been accepted at instant 1000 on a five-section page. *)
Definition afterSwipe : State :=
  run (useScrollContainer 5) [ (1000, Wheel 50) ] (mount fiveSections).

(** A host that declares two sections but has attached three elements. *)
Definition staleTotal : Config := useScrollContainer 2.
Definition threeAttached : State := mount (attach [10; 11; 12]%nat).

End Scenario.

From stdpp Require Import strings.

Local Open Scope Z_scope.

(* ================================================================== *)
(** ** useHorizontalScrollContainer (horizontal items) *)
(* ================================================================== *)

Module HorizontalScrollContainer.

(** What the hook asks of its host. *)
Inductive Effect :=
| ScrollIntoView (target : ScrollContainer.Element)
                 (behavior : ScrollContainer.Behavior)
| UpdateActiveItem (itemIndex : Z).

(** [UseHorizontalScrollContainerProps] with the parameters passed to the
    two inner hooks; [updateActiveItem] tells whether the optional
    callback was supplied. *)
Record Config := {
  totalItems : Z;
  updateActiveItem : bool;
  detection : TouchpadDetection.Props;
  throttle : ScrollThrottle.Props
}.

(** The parameters written in [useHorizontalScrollContainer]. *)
Definition useHorizontalScrollContainer (total : Z) (callback : bool)
  : Config :=
  {| totalItems := total;
     updateActiveItem := callback;
     detection := {| TouchpadDetection.minTimeGap := 1500;
                     TouchpadDetection.minDelta := 4 |};
     throttle := {| ScrollThrottle.normalThrottle := 600;
                    ScrollThrottle.momentumThrottle := 1800 |} |}.

Definition MIN_TOUCH_DISTANCE : Z := 50.
Definition MAX_TOUCH_TIME : Z := 800.

(** The fields of a [WheelEvent] that the handler reads. *)
Record WheelEvent := {
  deltaX : Z;
  deltaY : Z;
  shiftKey : bool
}.

(** The mutable cells of one mounted hook: no safety timer and no
    transition start here. *)
Record State := {
  currentItem : Z;
  isScrollingRef : bool;
  itemRefs : gmap Z ScrollContainer.Element;
  touchStartXRef : Z;
  touchStartTimeRef : Z;
  isTouchingRef : bool;
  detectionRefs : TouchpadDetection.Refs;
  throttleRefs : ScrollThrottle.Refs;
  effects : list Effect
}.

Definition mount (refs : gmap Z ScrollContainer.Element) : State :=
  {| currentItem := 0;
     isScrollingRef := false;
     itemRefs := refs;
     touchStartXRef := 0;
     touchStartTimeRef := 0;
     isTouchingRef := false;
     detectionRefs := TouchpadDetection.initial;
     throttleRefs := ScrollThrottle.initial;
     effects := [] |}.

Definition set_detectionRefs (d : TouchpadDetection.Refs) (s : State) :=
  {| currentItem := currentItem s;
     isScrollingRef := isScrollingRef s;
     itemRefs := itemRefs s;
     touchStartXRef := touchStartXRef s;
     touchStartTimeRef := touchStartTimeRef s;
     isTouchingRef := isTouchingRef s;
     detectionRefs := d;
     throttleRefs := throttleRefs s;
     effects := effects s |}.

Definition set_isTouchingRef (b : bool) (s : State) :=
  {| currentItem := currentItem s;
     isScrollingRef := isScrollingRef s;
     itemRefs := itemRefs s;
     touchStartXRef := touchStartXRef s;
     touchStartTimeRef := touchStartTimeRef s;
     isTouchingRef := b;
     detectionRefs := detectionRefs s;
     throttleRefs := throttleRefs s;
     effects := effects s |}.

Definition set_isScrollingRef (b : bool) (s : State) :=
  {| currentItem := currentItem s;
     isScrollingRef := b;
     itemRefs := itemRefs s;
     touchStartXRef := touchStartXRef s;
     touchStartTimeRef := touchStartTimeRef s;
     isTouchingRef := isTouchingRef s;
     detectionRefs := detectionRefs s;
     throttleRefs := throttleRefs s;
     effects := effects s |}.

(** [scrollToItem(itemIndex)]; [updateActiveItem?.(itemIndex)] calls the
    callback only when there is one. *)
Definition scrollToItem (c : Config) (itemIndex now : Z) (s : State)
  : State :=
  match itemRefs s !! itemIndex with
  | Some targetElement =>
      {| currentItem := itemIndex;
         isScrollingRef := true;
         itemRefs := itemRefs s;
         touchStartXRef := touchStartXRef s;
         touchStartTimeRef := touchStartTimeRef s;
         isTouchingRef := isTouchingRef s;
         detectionRefs := detectionRefs s;
         throttleRefs := ScrollThrottle.updateThrottle now (throttleRefs s);
         effects :=
           effects s
           ++ ScrollIntoView targetElement ScrollContainer.smooth
              :: (if updateActiveItem c then [UpdateActiveItem itemIndex]
                  else []) |}
  | None => s
  end.

(** [handleItemChange(itemIndex, behavior)]. *)
Definition handleItemChange (itemIndex : Z)
    (behavior : ScrollContainer.Behavior) (s : State) : State :=
  match itemRefs s !! itemIndex with
  | Some targetElement =>
      {| currentItem := itemIndex;
         isScrollingRef := isScrollingRef s;
         itemRefs := itemRefs s;
         touchStartXRef := touchStartXRef s;
         touchStartTimeRef := touchStartTimeRef s;
         isTouchingRef := isTouchingRef s;
         detectionRefs := detectionRefs s;
         throttleRefs := throttleRefs s;
         effects := effects s ++ [ScrollIntoView targetElement behavior] |}
  | None => s
  end.

(** The observer callback of this hook. *)
Definition observerCallback (entries : list ScrollContainer.Entry)
    (s : State) : State :=
  fold_left (fun acc e => if ScrollContainer.inView e
                          then set_isScrollingRef false acc else acc)
            entries s.

(** The delta that the wheel handler works with:
    [e.deltaX !== 0 ? e.deltaX : e.shiftKey ? e.deltaY : 0]. *)
Definition horizontalDelta (e : WheelEvent) : Z :=
  if negb (deltaX e =? 0) then deltaX e
  else if shiftKey e then deltaY e else 0.

(** [throttledWheelHandler(e)].  The unused [throttleStatus] read has no
    effect and is left out. *)
Definition throttledWheelHandler (c : Config) (e : WheelEvent) (now : Z)
    (s : State) : State :=
  let deltaX := horizontalDelta e in
  if deltaX =? 0 then s
  else
    let '(isMomentumScroll, d) :=
      TouchpadDetection.detectInertia (detection c) deltaX now
                                      (detectionRefs s) in
    let s := set_detectionRefs d s in
    if negb (TouchpadDetection.isValidDelta (detection c) deltaX) then s
    else if isScrollingRef s then s
    else if ScrollThrottle.isThrottled (throttle c) isMomentumScroll now
                                       (throttleRefs s) then s
    else
      let direction := if deltaX >? 0 then 1 else -1 in
      let nextItem := currentItem s + direction in
      if (nextItem >=? 0) && (nextItem <? totalItems c)
      then scrollToItem c nextItem now s
      else s.

(** [handleTouchStart(e)] with [clientX = e.touches[0].clientX]. *)
Definition handleTouchStart (clientX now : Z) (s : State) : State :=
  if isScrollingRef s then s
  else
    {| currentItem := currentItem s;
       isScrollingRef := isScrollingRef s;
       itemRefs := itemRefs s;
       touchStartXRef := clientX;
       touchStartTimeRef := now;
       isTouchingRef := true;
       detectionRefs := detectionRefs s;
       throttleRefs := throttleRefs s;
       effects := effects s |}.

(** [handleTouchEnd(e)] with [touchEndX = e.changedTouches[0].clientX]. *)
Definition handleTouchEnd (c : Config) (touchEndX now : Z) (s : State)
  : State :=
  if negb (isTouchingRef s) then s
  else
    let touchEndTime := now in
    let deltaX := touchStartXRef s - touchEndX in
    let deltaTime := touchEndTime - touchStartTimeRef s in
    let distance := Z.abs deltaX in
    let s := set_isTouchingRef false s in
    if distance <? MIN_TOUCH_DISTANCE then s
    else if deltaTime >? MAX_TOUCH_TIME then s
    else if ScrollThrottle.isThrottled (throttle c) false now
                                       (throttleRefs s) then s
    else
      let direction := if deltaX >? 0 then 1 else -1 in
      let nextItem := currentItem s + direction in
      if (nextItem >=? 0) && (nextItem <? totalItems c)
      then scrollToItem c nextItem now s
      else s.

(** [handleTouchCancel()]. *)
Definition handleTouchCancel (s : State) : State :=
  set_isTouchingRef false s.

Inductive Event :=
| Wheel (e : WheelEvent)
| TouchStart (clientX : Z)
| TouchMove
| TouchEnd (clientX : Z)
| TouchCancel
| Observed (entries : list ScrollContainer.Entry)
| CallScrollToItem (itemIndex : Z)
| ItemChange (itemIndex : Z) (behavior : ScrollContainer.Behavior).

Definition handle (c : Config) (ev : Event) (now : Z) (s : State) : State :=
  match ev with
  | Wheel e => throttledWheelHandler c e now s
  | TouchStart x => handleTouchStart x now s
  | TouchMove => s
  | TouchEnd x => handleTouchEnd c x now s
  | TouchCancel => handleTouchCancel s
  | Observed entries => observerCallback entries s
  | CallScrollToItem i => scrollToItem c i now s
  | ItemChange i b => handleItemChange i b s
  end.

(** This hook sets no timer: a trace is handled event by event. *)
Definition run (c : Config) (trace : list (Z * Event)) (s : State) : State :=
  fold_left (fun acc tev => handle c (snd tev) (fst tev) acc) trace s.

(** An event that reports some item as in view. *)
Definition confirms (ev : Event) : bool :=
  match ev with
  | Observed entries => existsb ScrollContainer.inView entries
  | _ => false
  end.

(** *** The vertical hook seen through the fields both hooks have *)

Definition sharedEffect (e : ScrollContainer.Effect) : Effect :=
  match e with
  | ScrollContainer.ScrollIntoView el b => ScrollIntoView el b
  | ScrollContainer.UpdateURL i => UpdateActiveItem i
  end.

Definition shared (s : ScrollContainer.State) : State :=
  {| currentItem := ScrollContainer.currentSection s;
     isScrollingRef := ScrollContainer.isScrollingRef s;
     itemRefs := ScrollContainer.sectionRefs s;
     touchStartXRef := ScrollContainer.touchStartYRef s;
     touchStartTimeRef := ScrollContainer.touchStartTimeRef s;
     isTouchingRef := ScrollContainer.isTouchingRef s;
     detectionRefs := ScrollContainer.detectionRefs s;
     throttleRefs := ScrollContainer.throttleRefs s;
     effects := map sharedEffect (ScrollContainer.effects s) |}.

End HorizontalScrollContainer.

(* ================================================================== *)
(** ** The routing example: URL hash and keyboard *)
(* ================================================================== *)

Module WithRoutingExample.

(** [sections.findIndex((s) => s.id === hash)], scanning from index
    [from]: the first match, or -1. *)
Fixpoint findIndexFrom (from : Z) (ids : list string) (hash : string) : Z :=
  match ids with
  | [] => -1
  | id :: rest =>
      if String.eqb id hash then from else findIndexFrom (from + 1) rest hash
  end.

Definition findIndex (ids : list string) (hash : string) : Z :=
  findIndexFrom 0 ids hash.

(** [window.location.hash.slice(1)]. *)
Definition slice1 (locationHash : string) : string :=
  match locationHash with
  | EmptyString => EmptyString
  | String _ rest => rest
  end.

(** The mount effect: deep link on page load. *)
Definition handleInitialHash (ids : list string) (locationHash : string)
    (s : ScrollContainer.State) : ScrollContainer.State :=
  let hash := slice1 locationHash in
  let sectionIndex := findIndex ids hash in
  if negb (sectionIndex =? -1)
  then ScrollContainer.handleURLSectionChange sectionIndex
         ScrollContainer.instant s
  else s.

(** [handlePopState()]. *)
Definition handlePopState (ids : list string) (locationHash : string)
    (s : ScrollContainer.State) : ScrollContainer.State :=
  let hash := slice1 locationHash in
  let sectionIndex := findIndex ids hash in
  if negb (sectionIndex =? -1)
  then ScrollContainer.handlePopStateNavigation sectionIndex s
  else s.

(** [handleKeyDown(e)] with [key = e.key]; [sections.length] is the
    length of [ids]. *)
Definition handleKeyDown (ids : list string) (key : string) (now : Z)
    (s : ScrollContainer.State) : ScrollContainer.State :=
  let currentSection := ScrollContainer.currentSection s in
  if String.eqb key "ArrowDown"%string
     && (currentSection <? Z.of_nat (length ids) - 1)
  then ScrollContainer.scrollToSection (currentSection + 1) now s
  else if String.eqb key "ArrowUp"%string && (currentSection >? 0)
  then ScrollContainer.scrollToSection (currentSection - 1) now s
  else s.

End WithRoutingExample.

(* ================================================================== *)
(** ** Inertia cascades and clock-ordered traces *)
(* ================================================================== *)

Module Trace.
Import ScrollContainer.

(** A trace that an inertia cascade produces after the sample held in
    [prev], while the throttle stamped at [stamp] is in its momentum
    window: every wheel event follows its predecessor within the time
    gap, in the same non-zero direction and with a magnitude that does not
    grow.  Completion reports and watchdog ticks may come in between. *)
Fixpoint cascade (c : Config) (stamp : Z) (prev : TouchpadDetection.Refs)
    (trace : list (Z * Event)) : Prop :=
  match trace with
  | [] => True
  | (now, Wheel deltaY) :: rest =>
      now - TouchpadDetection.lastEventTimeRef prev
        < TouchpadDetection.minTimeGap (detection c)
      /\ TouchpadDetection.lastDirectionRef prev <> 0
      /\ Z.sgn deltaY = TouchpadDetection.lastDirectionRef prev
      /\ Z.abs deltaY <= TouchpadDetection.lastDeltaRef prev
      /\ now - stamp < ScrollThrottle.momentumThrottle (throttle c)
      /\ cascade c stamp (TouchpadDetection.refs_of_sample (deltaY, now)) rest
  | (_, Observed _) :: rest => cascade c stamp prev rest
  | (_, WatchdogTick) :: rest => cascade c stamp prev rest
  | _ => False
  end.

(** Events delivered in clock order, none before [from]. *)
Fixpoint chronological (from : Z) (trace : list (Z * Event)) : Prop :=
  match trace with
  | [] => True
  | (now, _) :: rest => from <= now /\ chronological now rest
  end.

(** The instant of the last event of a trace that starts at [from]. *)
Fixpoint lastInstant (from : Z) (trace : list (Z * Event)) : Z :=
  match trace with
  | [] => from
  | (now, _) :: rest => lastInstant now rest
  end.

(** The events that re-run the observer effect. *)
Definition cleans (ev : Event) : bool :=
  match ev with
  | EffectCleanup => true
  | _ => false
  end.

(** A trace during which the observer effect is never re-run, that is,
    [totalSections] stays what it was. *)
Definition steadyProps (trace : list (Z * Event)) : Prop :=
  Forall (fun tev => cleans (snd tev) = false) trace.

(** An armed safety timer belongs to a held lock and is due 2000 after
    the transition start. *)
Definition timerOwned (s : State) : Prop :=
  scrollTimeoutRef s = None
  \/ (isScrollingRef s = true
      /\ scrollTimeoutRef s = Some (lastScrollTimeRef s + SAFETY_TIMEOUT)).

(** While the lock is held, the safety timer is armed for 2000 after the
    transition start. *)
Definition armed (s : State) : Prop :=
  isScrollingRef s = false
  \/ scrollTimeoutRef s = Some (lastScrollTimeRef s + SAFETY_TIMEOUT).

(** The registry is never written, and the current section is the initial
    one or one that has an element. *)
Definition settled (refs : gmap Z Element) (s : State) : Prop :=
  sectionRefs s = refs
  /\ (currentSection s = 0 \/ is_Some (refs !! currentSection s)).

(** The same classifier memory with the direction reversed. *)
Definition mirror (r : TouchpadDetection.Refs) : TouchpadDetection.Refs :=
  {| TouchpadDetection.lastDeltaRef := TouchpadDetection.lastDeltaRef r;
     TouchpadDetection.lastDirectionRef :=
       - TouchpadDetection.lastDirectionRef r;
     TouchpadDetection.lastEventTimeRef :=
       TouchpadDetection.lastEventTimeRef r |}.

(** A state, and a trace, as they read on a clock that runs [k] ahead:
    every stored instant is moved by [k]. *)
Definition shiftRefs (k : Z) (r : TouchpadDetection.Refs)
  : TouchpadDetection.Refs :=
  {| TouchpadDetection.lastDeltaRef := TouchpadDetection.lastDeltaRef r;
     TouchpadDetection.lastDirectionRef :=
       TouchpadDetection.lastDirectionRef r;
     TouchpadDetection.lastEventTimeRef :=
       TouchpadDetection.lastEventTimeRef r + k |}.

Definition shiftState (k : Z) (s : State) : State :=
  {| currentSection := currentSection s;
     isScrollingRef := isScrollingRef s;
     scrollTimeoutRef :=
       match scrollTimeoutRef s with
       | Some due => Some (due + k)
       | None => None
       end;
     lastScrollTimeRef := lastScrollTimeRef s + k;
     sectionRefs := sectionRefs s;
     touchStartYRef := touchStartYRef s;
     touchStartTimeRef := touchStartTimeRef s + k;
     isTouchingRef := isTouchingRef s;
     detectionRefs := shiftRefs k (detectionRefs s);
     throttleRefs :=
       {| ScrollThrottle.lastThrottleTimeRef :=
            ScrollThrottle.lastThrottleTimeRef (throttleRefs s) + k |};
     effects := effects s |}.

Definition shiftTrace (k : Z) (trace : list (Z * Event)) : list (Z * Event) :=
  map (fun tev => (fst tev + k, snd tev)) trace.

(** Only wheel, touch-start, touch-move and touch-cancel events. *)
Definition passive (ev : HorizontalScrollContainer.Event) : bool :=
  match ev with
  | HorizontalScrollContainer.Wheel _
  | HorizontalScrollContainer.TouchStart _
  | HorizontalScrollContainer.TouchMove
  | HorizontalScrollContainer.TouchCancel => true
  | _ => false
  end.

End Trace.

(* ================================================================== *)
(** * Properties *)
(* ================================================================== *)

(** Decides the integer comparisons met in the goal, one case split per
    comparison, and closes what arithmetic closes. *)
Ltac split_cmp :=
  repeat match goal with
    | |- context [Z.ltb ?a ?b] => destruct (Z.ltb_spec a b)
    | |- context [Z.leb ?a ?b] => destruct (Z.leb_spec a b)
    | |- context [Z.gtb ?a ?b] => rewrite (Z.gtb_ltb a b)
    | |- context [Z.geb ?a ?b] => rewrite (Z.geb_leb a b)
    | |- context [Z.eqb ?a ?b] => destruct (Z.eqb_spec a b)
    end.

(** Rewrites a comparison whose outcome [lia] can tell, without splitting. *)
Ltac settle_cmp :=
  repeat first
    [ rewrite Z.gtb_ltb
    | rewrite Z.geb_leb
    | match goal with
      | |- context [Z.ltb ?a ?b] =>
          first [ rewrite (proj2 (Z.ltb_lt a b)) by lia
                | rewrite (proj2 (Z.ltb_ge a b)) by lia ]
      | |- context [Z.leb ?a ?b] =>
          first [ rewrite (proj2 (Z.leb_le a b)) by lia
                | rewrite (proj2 (Z.leb_gt a b)) by lia ]
      | |- context [Z.eqb ?a ?b] =>
          first [ rewrite (proj2 (Z.eqb_eq a b)) by lia
                | rewrite (proj2 (Z.eqb_neq a b)) by lia ]
      end ].

(* ------------------------------------------------------------------ *)
(** ** The classifier *)
(* ------------------------------------------------------------------ *)

Section Classifier.
Import TouchpadDetection.

Variable p : Props.

(** The label of one call, against the refs it finds. *)
Lemma detectInertia_label (deltaY now : Z) (r : Refs) :
  fst (detectInertia p deltaY now r) = true <->
  now - lastEventTimeRef r < minTimeGap p
  /\ (lastDirectionRef r <> 0 /\ Z.sgn deltaY = lastDirectionRef r)
  /\ Z.abs deltaY <= lastDeltaRef r.
Proof.
  unfold detectInertia; cbn [fst].
  rewrite !andb_true_iff, negb_true_iff.
  rewrite Z.ltb_lt, Z.leb_le, Z.eqb_eq, Z.eqb_neq.
  tauto.
Qed.

(** The refs after one call are the sample itself. *)
Lemma detectInertia_refs (deltaY now : Z) (r : Refs) :
  snd (detectInertia p deltaY now r) = refs_of_sample (deltaY, now).
Proof. reflexivity. Qed.

Lemma feed_app (xs ys : list (Z * Z)) (r : Refs) :
  feed p (xs ++ ys) r =
  (fst (feed p xs r) ++ fst (feed p ys (snd (feed p xs r))),
   snd (feed p ys (snd (feed p xs r)))).
Proof.
  revert r; induction xs as [|[dy t] xs IH]; intros r; cbn [feed app].
  - cbn [fst snd app]. now destruct (feed p ys r).
  - destruct (detectInertia p dy t r) as [b r1] eqn:E.
    rewrite IH.
    destruct (feed p xs r1) as [ls r2]; cbn [fst snd].
    reflexivity.
Qed.

(** After any stream the refs hold the last sample, or are untouched
    when the stream is empty. *)
Lemma feed_refs (xs : list (Z * Z)) (r : Refs) :
  snd (feed p xs r) =
  match last xs with Some s => refs_of_sample s | None => r end.
Proof.
  revert r; induction xs as [|[dy t] xs IH]; intros r; [reflexivity|].
  cbn [feed].
  destruct (detectInertia p dy t r) as [b r1] eqn:E.
  specialize (IH r1).
  destruct (feed p xs r1) as [ls r2]; cbn [snd] in *.
  rewrite IH.
  destruct xs as [|x xs'].
  - cbn [last]. change r1 with (snd (b, r1)); rewrite <- E.
    apply detectInertia_refs.
  - change (last ((dy, t) :: x :: xs')) with (last (x :: xs')).
    destruct (last (x :: xs')) eqn:El; [reflexivity|].
    apply last_None in El; discriminate.
Qed.

End Classifier.

(** C1.  One classifier instance, started with all three refs at 0, is fed
    any stream of samples and then one more sample with magnitude
    [m = |deltaY|], direction [d = sign deltaY] and time [now].  The refs
    [prev] that this call finds are those of the previous sample (the
    initial ones if there is none); the call labels the sample momentum
    exactly when [now - lastTimestamp < minTimeGap], [lastDirection <> 0]
    with [d = lastDirection], and [m <= lastMagnitude]; the first sample of
    a stream is intentional; and the refs after the call are exactly
    [(m, d, now)]. *)
Theorem classify_stream_correct
    (p : TouchpadDetection.Props) (pre : list (Z * Z)) (deltaY now : Z) :
  let prev :=
    match last pre with
    | Some s => TouchpadDetection.refs_of_sample s
    | None => TouchpadDetection.initial
    end in
  exists (labels : list bool) (label : bool),
    TouchpadDetection.feed p pre TouchpadDetection.initial = (labels, prev)
    /\ TouchpadDetection.feed p (pre ++ [(deltaY, now)])
                              TouchpadDetection.initial
       = (labels ++ [label],
          {| TouchpadDetection.lastDeltaRef := Z.abs deltaY;
             TouchpadDetection.lastDirectionRef := Z.sgn deltaY;
             TouchpadDetection.lastEventTimeRef := now |})
    /\ (label = true <->
        now - TouchpadDetection.lastEventTimeRef prev
          < TouchpadDetection.minTimeGap p
        /\ (TouchpadDetection.lastDirectionRef prev <> 0
            /\ Z.sgn deltaY = TouchpadDetection.lastDirectionRef prev)
        /\ Z.abs deltaY <= TouchpadDetection.lastDeltaRef prev)
    /\ (pre = [] -> label = false).
Proof.
  intros prev.
  pose proof (feed_refs p pre TouchpadDetection.initial) as Hrefs.
  fold prev in Hrefs.
  destruct (TouchpadDetection.feed p pre TouchpadDetection.initial)
    as [labels r] eqn:Hpre.
  cbn [snd] in Hrefs; subst r.
  exists labels,
    (fst (TouchpadDetection.detectInertia p deltaY now prev)).
  split; [reflexivity|].
  split.
  { rewrite feed_app, Hpre; reflexivity. }
  split.
  { apply detectInertia_label. }
  intros ->.
  destruct (fst (TouchpadDetection.detectInertia p deltaY now prev)) eqn:E;
    [|reflexivity].
  apply detectInertia_label in E.
  cbn in E. lia.
Qed.

(** The momentum truth table of the specification, run on the code. *)
Example momentum_truth_table :
  fst (TouchpadDetection.feed TouchpadDetection.defaults
         [(50, 0); (40, 10); (60, 2000)] TouchpadDetection.initial)
  = [false; true; false].
Proof. reflexivity. Qed.

(* ------------------------------------------------------------------ *)
(** ** The throttle *)
(* ------------------------------------------------------------------ *)

(** C2.  [isThrottled(isMomentum)] is true exactly when
    [now - lastAcceptedTimestamp < effective], with [effective] the
    momentum duration for a momentum sample and the normal one otherwise.
    With durations 600 and 1800 and an accepted action at instant 0 the
    normal tier is closed at 599 and open at 600, the momentum tier closed
    at 1799 and open at 1800. *)
Theorem isThrottled_spec :
  (forall (p : ScrollThrottle.Props) (isMomentum : bool) (now : Z)
          (r : ScrollThrottle.Refs),
      ScrollThrottle.isThrottled p isMomentum now r = true <->
      now - ScrollThrottle.lastThrottleTimeRef r
        < (if isMomentum then ScrollThrottle.momentumThrottle p
           else ScrollThrottle.normalThrottle p))
  /\ (forall r0 : ScrollThrottle.Refs,
        let p := {| ScrollThrottle.normalThrottle := 600;
                    ScrollThrottle.momentumThrottle := 1800 |} in
        let r := ScrollThrottle.updateThrottle 0 r0 in
        ScrollThrottle.isThrottled p false 599 r = true
        /\ ScrollThrottle.isThrottled p false 600 r = false
        /\ ScrollThrottle.isThrottled p true 1799 r = true
        /\ ScrollThrottle.isThrottled p true 1800 r = false).
Proof.
  split.
  - intros p m now r. unfold ScrollThrottle.isThrottled.
    apply Z.ltb_lt.
  - intros r0; cbn; repeat split.
Qed.

(** C10.  The verdict in the status record ([remainingTime > 0] with
    [remainingTime = max 0 (effective - elapsed)]) is the boolean that
    [isThrottled] returns ([elapsed < effective]), for every state, instant
    and tier; at the expiry instant both say "not throttled". *)
Theorem getThrottleStatus_agrees_isThrottled :
  (forall (p : ScrollThrottle.Props) (isMomentum : bool) (now : Z)
          (r : ScrollThrottle.Refs),
      ScrollThrottle.status_isThrottled
        (ScrollThrottle.getThrottleStatus p isMomentum now r)
      = ScrollThrottle.isThrottled p isMomentum now r)
  /\ (forall (p : ScrollThrottle.Props) (isMomentum : bool)
             (r : ScrollThrottle.Refs),
        let expiry :=
          ScrollThrottle.lastThrottleTimeRef r
          + (if isMomentum then ScrollThrottle.momentumThrottle p
             else ScrollThrottle.normalThrottle p) in
        ScrollThrottle.status_isThrottled
          (ScrollThrottle.getThrottleStatus p isMomentum expiry r) = false
        /\ ScrollThrottle.isThrottled p isMomentum expiry r = false).
Proof.
  split.
  - intros p m now r.
    unfold ScrollThrottle.getThrottleStatus, ScrollThrottle.isThrottled.
    cbn [ScrollThrottle.status_isThrottled].
    split_cmp; lia.
  - intros p m r expiry; subst expiry.
    unfold ScrollThrottle.getThrottleStatus, ScrollThrottle.isThrottled.
    cbn [ScrollThrottle.status_isThrottled].
    split; settle_cmp; reflexivity.
Qed.

(* ------------------------------------------------------------------ *)
(** ** Navigation: shared lemmas *)
(* ------------------------------------------------------------------ *)

Section Navigation.
Import ScrollContainer.

Lemma attachFrom_lookup (elements : list Element) (first j : Z) :
  is_Some (attachFrom first elements !! j) <->
  first <= j < first + Z.of_nat (length elements).
Proof.
  revert first; induction elements as [|el rest IH]; intros first.
  - cbn [attachFrom length]. rewrite lookup_empty.
    split; [intros [x Hx]; discriminate | lia].
  - cbn [attachFrom length]. rewrite lookup_insert.
    destruct (decide (first = j)) as [->|Hne].
    + split; [lia | eauto].
    + rewrite IH. lia.
Qed.

Lemma attach_lookup (elements : list Element) (j : Z) :
  is_Some (attach elements !! j) <-> 0 <= j < Z.of_nat (length elements).
Proof. unfold attach. rewrite attachFrom_lookup. lia. Qed.

Lemma scrollToSection_unregistered (i now : Z) (s : State) :
  sectionRefs s !! i = None -> scrollToSection i now s = s.
Proof. intros H. unfold scrollToSection. now rewrite H. Qed.

Lemma scrollToSection_registered (i now : Z) (s : State) (el : Element) :
  sectionRefs s !! i = Some el ->
  scrollToSection i now s =
  {| currentSection := i;
     isScrollingRef := true;
     scrollTimeoutRef := Some (now + SAFETY_TIMEOUT);
     lastScrollTimeRef := now;
     sectionRefs := sectionRefs s;
     touchStartYRef := touchStartYRef s;
     touchStartTimeRef := touchStartTimeRef s;
     isTouchingRef := isTouchingRef s;
     detectionRefs := detectionRefs s;
     throttleRefs := {| ScrollThrottle.lastThrottleTimeRef := now |};
     effects := effects s ++ [ScrollIntoView el smooth; UpdateURL i] |}.
Proof. intros H. unfold scrollToSection. now rewrite H. Qed.

(** Whatever the classifier does, it touches no navigation field. *)
Lemma navigation_classified (c : Config) (deltaY now : Z) (s : State) :
  navigation (classified c deltaY now s) = navigation s.
Proof. reflexivity. Qed.

(** The wheel handler either stops after classification or performs one
    [scrollToSection] to the neighbouring section. *)
Lemma wheel_outcome (c : Config) (deltaY now : Z) (s : State) :
  throttledWheelHandler c deltaY now s = classified c deltaY now s
  \/ throttledWheelHandler c deltaY now s
     = scrollToSection (currentSection s + directionOf deltaY) now
                       (classified c deltaY now s).
Proof.
  unfold throttledWheelHandler, classified, directionOf.
  destruct (TouchpadDetection.detectInertia _ _ _ _) as [m d]; cbn [snd].
  repeat match goal with
         | |- context [if ?b then _ else _] => destruct b; auto
         end.
Qed.

Lemma wheel_locked (c : Config) (deltaY now : Z) (s : State) :
  isScrollingRef s = true ->
  throttledWheelHandler c deltaY now s = classified c deltaY now s.
Proof.
  intros Hlock. unfold throttledWheelHandler, classified.
  destruct (TouchpadDetection.detectInertia _ _ _ _) as [m d]; cbn [snd].
  destruct (negb _); [reflexivity|].
  cbn [set_detectionRefs isScrollingRef]. now rewrite Hlock.
Qed.

Lemma wheel_noise (c : Config) (deltaY now : Z) (s : State) :
  Z.abs deltaY < TouchpadDetection.minDelta (detection c) ->
  throttledWheelHandler c deltaY now s = classified c deltaY now s.
Proof.
  intros Hsmall. unfold throttledWheelHandler, classified.
  destruct (TouchpadDetection.detectInertia _ _ _ _) as [m d]; cbn [snd].
  unfold TouchpadDetection.isValidDelta.
  settle_cmp. reflexivity.
Qed.

Lemma wheel_throttled (c : Config) (deltaY now : Z) (s : State) :
  ScrollThrottle.isThrottled (throttle c) (wheelLabel c deltaY now s) now
                             (throttleRefs s) = true ->
  throttledWheelHandler c deltaY now s = classified c deltaY now s.
Proof.
  intros Hthr. unfold throttledWheelHandler, classified, wheelLabel in *.
  destruct (TouchpadDetection.detectInertia _ _ _ _) as [m d];
    cbn [fst snd] in *.
  destruct (negb _); [reflexivity|].
  destruct (isScrollingRef _); [reflexivity|].
  cbn [set_detectionRefs throttleRefs]. now rewrite Hthr.
Qed.

Lemma wheel_out_of_range (c : Config) (deltaY now : Z) (s : State) :
  ~ (0 <= currentSection s + directionOf deltaY < totalSections c) ->
  throttledWheelHandler c deltaY now s = classified c deltaY now s.
Proof.
  intros Hout. unfold throttledWheelHandler, classified, directionOf in *.
  destruct (TouchpadDetection.detectInertia _ _ _ _) as [m d]; cbn [snd].
  destruct (negb _); [reflexivity|].
  destruct (isScrollingRef _); [reflexivity|].
  destruct (ScrollThrottle.isThrottled _ _ _ _); [reflexivity|].
  cbn [set_detectionRefs currentSection].
  destruct (_ && _) eqn:E; [|reflexivity].
  apply andb_true_iff in E as [E1 E2].
  rewrite Z.geb_leb in E1. apply Z.leb_le in E1. apply Z.ltb_lt in E2.
  lia.
Qed.

Lemma wheel_accepts (c : Config) (deltaY now : Z) (s : State) :
  TouchpadDetection.minDelta (detection c) <= Z.abs deltaY ->
  isScrollingRef s = false ->
  ScrollThrottle.isThrottled (throttle c) (wheelLabel c deltaY now s) now
                             (throttleRefs s) = false ->
  0 <= currentSection s + directionOf deltaY < totalSections c ->
  throttledWheelHandler c deltaY now s
  = scrollToSection (currentSection s + directionOf deltaY) now
                    (classified c deltaY now s).
Proof.
  intros Hbig Hidle Hthr Hin.
  unfold throttledWheelHandler, classified, wheelLabel, directionOf in *.
  destruct (TouchpadDetection.detectInertia _ _ _ _) as [m d];
    cbn [fst snd] in *.
  unfold TouchpadDetection.isValidDelta.
  cbn [set_detectionRefs isScrollingRef throttleRefs currentSection].
  rewrite Hidle, Hthr.
  destruct (deltaY >? 0); settle_cmp; reflexivity.
Qed.

(** The touch-end handler: at most one [scrollToSection], after the
    stream has been marked inactive. *)
Lemma touchEnd_outcome (c : Config) (y now : Z) (s : State) :
  handleTouchEnd c y now s = s
  \/ handleTouchEnd c y now s = set_isTouchingRef false s
  \/ handleTouchEnd c y now s
     = scrollToSection (currentSection s + directionOf (touchStartYRef s - y))
                       now (set_isTouchingRef false s).
Proof.
  unfold handleTouchEnd, directionOf.
  repeat match goal with
         | |- context [if ?b then _ else _] => destruct b; auto
         end.
Qed.

Lemma touchEnd_out_of_range (c : Config) (y now : Z) (s : State) :
  ~ (0 <= currentSection s + directionOf (touchStartYRef s - y)
       < totalSections c) ->
  handleTouchEnd c y now s = s
  \/ handleTouchEnd c y now s = set_isTouchingRef false s.
Proof.
  intros Hout. unfold handleTouchEnd, directionOf in *.
  destruct (negb _); [now left|]. right.
  destruct (_ <? MIN_TOUCH_DISTANCE); [reflexivity|].
  destruct (_ >? MAX_TOUCH_TIME); [reflexivity|].
  destruct (ScrollThrottle.isThrottled _ _ _ _); [reflexivity|].
  cbn [set_isTouchingRef currentSection].
  destruct (_ && _) eqn:E; [|reflexivity].
  apply andb_true_iff in E as [E1 E2].
  rewrite Z.geb_leb in E1. apply Z.leb_le in E1. apply Z.ltb_lt in E2.
  lia.
Qed.

End Navigation.

(* ------------------------------------------------------------------ *)
(** ** Gestures while a transition is in flight *)
(* ------------------------------------------------------------------ *)

(** C3, as stated, fails for touch.  A finger goes down on an idle page, a
    programmatic jump starts a transition, and the finger is lifted 650
    time-units later: the lock is still held (the safety timer is due at
    3100), yet the touch-end handler moves the page from section 1 to
    section 2 and re-arms the throttle. *)
Lemma touch_end_moves_during_transition :
  let c := ScrollContainer.useScrollContainer 5 in
  let s := Scenario.touchDuringTransition in
  let s' := ScrollContainer.deliver c (1750, ScrollContainer.TouchEnd 100) s in
  ScrollContainer.isScrollingRef s = true
  /\ ScrollContainer.fireDueTimer 1750 s = s
  /\ ScrollContainer.currentSection s = 1
  /\ ScrollContainer.currentSection s' = 2
  /\ ScrollContainer.throttleRefs s
     = {| ScrollThrottle.lastThrottleTimeRef := 1100 |}
  /\ ScrollContainer.throttleRefs s'
     = {| ScrollThrottle.lastThrottleTimeRef := 1750 |}.
Proof. vm_compute. repeat split; reflexivity. Qed.

(** C3, amended.  While the lock is held, every wheel event stops right
    after classification: the current section, the lock, the transition
    start, the safety timer, the throttle timestamp and the host log are
    what they were, so two wheel events in a row change no index.  A
    touch-start is ignored, and a whole touch gesture that begins while
    the lock is held and no earlier touch is active leaves the state
    untouched. *)
Theorem gesture_while_locked (c : ScrollContainer.Config)
    (s : ScrollContainer.State) :
  ScrollContainer.isScrollingRef s = true ->
  (forall deltaY now,
      ScrollContainer.throttledWheelHandler c deltaY now s
      = ScrollContainer.classified c deltaY now s
      /\ ScrollContainer.navigation
           (ScrollContainer.throttledWheelHandler c deltaY now s)
         = ScrollContainer.navigation s)
  /\ (forall d1 t1 d2 t2,
        ScrollContainer.navigation
          (ScrollContainer.throttledWheelHandler c d2 t2
             (ScrollContainer.throttledWheelHandler c d1 t1 s))
        = ScrollContainer.navigation s)
  /\ (forall y now, ScrollContainer.handleTouchStart y now s = s)
  /\ (ScrollContainer.isTouchingRef s = false ->
      forall y0 t0 y1 t1,
        ScrollContainer.handleTouchEnd c y1 t1
          (ScrollContainer.handleTouchStart y0 t0 s) = s).
Proof.
  intros Hlock.
  assert (Hstart : forall y now, ScrollContainer.handleTouchStart y now s = s).
  { intros y now. unfold ScrollContainer.handleTouchStart.
    now rewrite Hlock. }
  split; [|split; [|split]].
  - intros deltaY now. rewrite wheel_locked by exact Hlock. now split.
  - intros d1 t1 d2 t2.
    rewrite (wheel_locked c d1 t1 s Hlock).
    rewrite wheel_locked by exact Hlock.
    reflexivity.
  - exact Hstart.
  - intros Hidle y0 t0 y1 t1. rewrite Hstart.
    unfold ScrollContainer.handleTouchEnd. now rewrite Hidle.
Qed.

Lemma gesture_while_locked_witness :
  ScrollContainer.navigation
    (ScrollContainer.throttledWheelHandler
       (ScrollContainer.useScrollContainer 5) 40 1020 Scenario.afterSwipe)
  = ScrollContainer.navigation Scenario.afterSwipe
  /\ ScrollContainer.handleTouchEnd (ScrollContainer.useScrollContainer 5)
       100 1300
       (ScrollContainer.handleTouchStart 300 1100 Scenario.afterSwipe)
     = Scenario.afterSwipe.
Proof.
  pose proof (gesture_while_locked (ScrollContainer.useScrollContainer 5)
                Scenario.afterSwipe eq_refl) as (Hwheel & _ & _ & Htouch).
  split.
  - exact (proj2 (Hwheel 40 1020)).
  - exact (Htouch eq_refl 300 1100 100 1300).
Defined.

(* ------------------------------------------------------------------ *)
(** ** What a jump does *)
(* ------------------------------------------------------------------ *)

(** C4, as stated, fails for the URL-driven entry points.  On a mounted
    five-section page, at instant 5000, a pop-state jump to the registered
    section 1 shows that section but neither takes the lock nor records a
    transition start; the same holds for a URL section change. *)
Lemma popstate_takes_no_lock :
  let c := ScrollContainer.useScrollContainer 5 in
  let s := ScrollContainer.mount Scenario.fiveSections in
  let s1 := ScrollContainer.deliver c (5000, ScrollContainer.PopState 1) s in
  let s2 := ScrollContainer.deliver c
              (5000, ScrollContainer.URLSectionChange 1 ScrollContainer.smooth)
              s in
  ScrollContainer.sectionRefs s !! 1 = Some 11%nat
  /\ ScrollContainer.currentSection s1 = 1
  /\ ScrollContainer.isScrollingRef s1 = false
  /\ ScrollContainer.lastScrollTimeRef s1 = 0
  /\ ScrollContainer.currentSection s2 = 1
  /\ ScrollContainer.isScrollingRef s2 = false
  /\ ScrollContainer.lastScrollTimeRef s2 = 0.
Proof. vm_compute. repeat split; reflexivity. Qed.

(** C4, amended.  A jump whose target element is registered always asks
    the host to scroll that element into view and sets the current section
    to the target.  [scrollToSection] (the direct call, and the only jump
    the wheel and touch handlers make) also takes the lock, records the
    transition start, notifies the URL updater and marks the throttle.
    The pop-state and URL-driven jumps leave the lock, the transition
    start, the safety timer and the throttle as they were and do not
    notify the URL updater. *)
Theorem jump_effects (s : ScrollContainer.State) (i : Z)
    (el : ScrollContainer.Element) :
  ScrollContainer.sectionRefs s !! i = Some el ->
  (forall now,
      let s' := ScrollContainer.scrollToSection i now s in
      ScrollContainer.currentSection s' = i
      /\ ScrollContainer.isScrollingRef s' = true
      /\ ScrollContainer.lastScrollTimeRef s' = now
      /\ ScrollContainer.throttleRefs s'
         = ScrollThrottle.updateThrottle now (ScrollContainer.throttleRefs s)
      /\ ScrollContainer.effects s'
         = ScrollContainer.effects s
           ++ [ScrollContainer.ScrollIntoView el ScrollContainer.smooth;
               ScrollContainer.UpdateURL i])
  /\ (forall c deltaY now,
        ScrollContainer.throttledWheelHandler c deltaY now s
        = ScrollContainer.classified c deltaY now s
        \/ ScrollContainer.throttledWheelHandler c deltaY now s
           = ScrollContainer.scrollToSection
               (ScrollContainer.currentSection s
                + ScrollContainer.directionOf deltaY)
               now (ScrollContainer.classified c deltaY now s))
  /\ (forall behavior,
        let s' := ScrollContainer.handleURLSectionChange i behavior s in
        ScrollContainer.currentSection s' = i
        /\ ScrollContainer.isScrollingRef s' = ScrollContainer.isScrollingRef s
        /\ ScrollContainer.lastScrollTimeRef s'
           = ScrollContainer.lastScrollTimeRef s
        /\ ScrollContainer.scrollTimeoutRef s'
           = ScrollContainer.scrollTimeoutRef s
        /\ ScrollContainer.throttleRefs s' = ScrollContainer.throttleRefs s
        /\ ScrollContainer.effects s'
           = ScrollContainer.effects s
             ++ [ScrollContainer.ScrollIntoView el behavior])
  /\ (let s' := ScrollContainer.handlePopStateNavigation i s in
      ScrollContainer.currentSection s' = i
      /\ ScrollContainer.isScrollingRef s' = ScrollContainer.isScrollingRef s
      /\ ScrollContainer.lastScrollTimeRef s'
         = ScrollContainer.lastScrollTimeRef s
      /\ ScrollContainer.scrollTimeoutRef s'
         = ScrollContainer.scrollTimeoutRef s
      /\ ScrollContainer.throttleRefs s' = ScrollContainer.throttleRefs s
      /\ ScrollContainer.effects s'
         = ScrollContainer.effects s
           ++ [ScrollContainer.ScrollIntoView el ScrollContainer.smooth]).
Proof.
  intros Hreg. split; [|split; [|split]].
  - intros now s'; subst s'.
    rewrite (scrollToSection_registered i now s el Hreg).
    repeat split.
  - intros c deltaY now. apply wheel_outcome.
  - intros behavior s'; subst s'.
    unfold ScrollContainer.handleURLSectionChange. rewrite Hreg.
    repeat split.
  - intros s'; subst s'.
    unfold ScrollContainer.handlePopStateNavigation. rewrite Hreg.
    repeat split.
Qed.

Lemma jump_effects_witness :
  ScrollContainer.isScrollingRef
    (ScrollContainer.scrollToSection 3 7000
       (ScrollContainer.mount Scenario.fiveSections)) = true
  /\ ScrollContainer.effects
       (ScrollContainer.handlePopStateNavigation 3
          (ScrollContainer.mount Scenario.fiveSections))
     = [ScrollContainer.ScrollIntoView 13%nat ScrollContainer.smooth].
Proof.
  pose proof (jump_effects (ScrollContainer.mount Scenario.fiveSections)
                3 13%nat eq_refl) as (Hdirect & _ & _ & Hpop).
  split.
  - exact (proj1 (proj2 (Hdirect 7000))).
  - exact (proj2 (proj2 (proj2 (proj2 (proj2 Hpop))))).
Defined.

(* ------------------------------------------------------------------ *)
(** ** The noise filter *)
(* ------------------------------------------------------------------ *)

(** C5 on the code.  A swipe of 50 has been accepted at instant 1000; a
    sub-threshold event of magnitude 2 arrives at 1010.  The handler has
    called the classifier before it looks at the filter: the event leaves
    the navigation state, throttle and host log alone, but the classifier
    refs now hold the noise sample (2, +1, 1010) instead of the swipe
    (50, +1, 1000).  The next sample of the inertia tail, 28 at 1020, would
    have been labelled momentum and is labelled intentional instead. *)
Lemma noise_reaches_classifier :
  let c := ScrollContainer.useScrollContainer 5 in
  let s := Scenario.afterSwipe in
  let s' := ScrollContainer.deliver c (1010, ScrollContainer.Wheel 2) s in
  TouchpadDetection.isValidDelta (ScrollContainer.detection c) 2 = false
  /\ ScrollContainer.detectionRefs s
     = {| TouchpadDetection.lastDeltaRef := 50;
          TouchpadDetection.lastDirectionRef := 1;
          TouchpadDetection.lastEventTimeRef := 1000 |}
  /\ ScrollContainer.detectionRefs s'
     = {| TouchpadDetection.lastDeltaRef := 2;
          TouchpadDetection.lastDirectionRef := 1;
          TouchpadDetection.lastEventTimeRef := 1010 |}
  /\ ScrollContainer.navigation s' = ScrollContainer.navigation s
  /\ ScrollContainer.wheelLabel c 28 1020 s = true
  /\ ScrollContainer.wheelLabel c 28 1020 s' = false.
Proof. vm_compute. repeat split; reflexivity. Qed.

(** What does hold for every sub-threshold wheel event: the current
    section, lock, transition start, safety timer, throttle timestamp and
    host log are unchanged. *)
Lemma wheel_noise_keeps_navigation (c : ScrollContainer.Config)
    (deltaY now : Z) (s : ScrollContainer.State) :
  Z.abs deltaY < TouchpadDetection.minDelta (ScrollContainer.detection c) ->
  ScrollContainer.navigation
    (ScrollContainer.throttledWheelHandler c deltaY now s)
  = ScrollContainer.navigation s.
Proof. intros H. now rewrite wheel_noise. Qed.

(* ------------------------------------------------------------------ *)
(** ** Targets without an element, targets out of range *)
(* ------------------------------------------------------------------ *)

(** C6, as stated, fails.  [scrollToSection] never reads [totalSections]:
    with two sections declared and a third element attached, the jump to
    index 2 is outside [0, total-1] and is carried out in full. *)
Lemma out_of_range_jump_proceeds :
  let c := Scenario.staleTotal in
  let s := Scenario.threeAttached in
  let s' := ScrollContainer.deliver c
              (1000, ScrollContainer.CallScrollToSection 2) s in
  ~ (0 <= 2 < ScrollContainer.totalSections c)
  /\ ScrollContainer.currentSection s = 0
  /\ ScrollContainer.currentSection s' = 2
  /\ ScrollContainer.isScrollingRef s' = true
  /\ ScrollContainer.lastScrollTimeRef s' = 1000
  /\ ScrollContainer.throttleRefs s'
     = {| ScrollThrottle.lastThrottleTimeRef := 1000 |}
  /\ ScrollContainer.effects s'
     = [ScrollContainer.ScrollIntoView 12%nat ScrollContainer.smooth;
        ScrollContainer.UpdateURL 2].
Proof.
  split; [cbn; lia|].
  vm_compute. repeat split; reflexivity.
Qed.

(** C6, amended.  A jump to an index that has no registered element is a
    no-op for each of the three entry points: the whole state, host log
    included, is returned as it was.  This covers every index outside
    [0, total-1] as soon as the host has attached elements only at indices
    inside that range. *)
Theorem jump_without_element_is_noop (total : Z)
    (s : ScrollContainer.State) (i : Z) :
  (ScrollContainer.sectionRefs s !! i = None
   \/ ((forall j, is_Some (ScrollContainer.sectionRefs s !! j) ->
                  0 <= j < total)
       /\ ~ (0 <= i < total))) ->
  forall now behavior,
    ScrollContainer.scrollToSection i now s = s
    /\ ScrollContainer.handlePopStateNavigation i s = s
    /\ ScrollContainer.handleURLSectionChange i behavior s = s.
Proof.
  intros H now behavior.
  assert (Hnone : ScrollContainer.sectionRefs s !! i = None).
  { destruct H as [H | [Hreg Hout]]; [exact H|].
    destruct (ScrollContainer.sectionRefs s !! i) as [el|] eqn:E;
      [|reflexivity].
    exfalso. apply Hout, Hreg. rewrite E. eauto. }
  unfold ScrollContainer.scrollToSection,
    ScrollContainer.handlePopStateNavigation,
    ScrollContainer.handleURLSectionChange.
  rewrite Hnone. repeat split.
Qed.

Lemma jump_without_element_is_noop_witness :
  ScrollContainer.scrollToSection 5 1000
    (ScrollContainer.mount Scenario.fiveSections)
  = ScrollContainer.mount Scenario.fiveSections
  /\ ScrollContainer.scrollToSection (-1) 1000
       (ScrollContainer.mount Scenario.fiveSections)
     = ScrollContainer.mount Scenario.fiveSections.
Proof.
  assert (Hreg : forall j,
             is_Some (ScrollContainer.sectionRefs
                        (ScrollContainer.mount Scenario.fiveSections) !! j) ->
             0 <= j < 5).
  { intros j Hj. apply attach_lookup in Hj. cbn in Hj. lia. }
  split.
  - apply (jump_without_element_is_noop 5
             (ScrollContainer.mount Scenario.fiveSections) 5
             (or_intror (conj Hreg (ltac:(lia) : ~ (0 <= 5 < 5))))
             1000 ScrollContainer.smooth).
  - apply (jump_without_element_is_noop 5
             (ScrollContainer.mount Scenario.fiveSections) (-1)
             (or_intror (conj Hreg (ltac:(lia) : ~ (0 <= -1 < 5))))
             1000 ScrollContainer.smooth).
Defined.

(** C9.  A wheel or touch step whose target [currentIndex + direction]
    lies outside [0, total-1] never reaches [scrollToSection]: the current
    section is unchanged, the throttle timestamp is exactly what it was (so
    every later throttle query answers as before), and the lock, the
    transition start, the safety timer and the host log are unchanged as
    well. *)
Theorem out_of_range_step_keeps_throttle (c : ScrollContainer.Config)
    (s : ScrollContainer.State) (delta : Z) :
  ~ (0 <= ScrollContainer.currentSection s + ScrollContainer.directionOf delta
       < ScrollContainer.totalSections c) ->
  (forall now,
      let s' := ScrollContainer.throttledWheelHandler c delta now s in
      ScrollContainer.currentSection s' = ScrollContainer.currentSection s
      /\ ScrollContainer.throttleRefs s' = ScrollContainer.throttleRefs s
      /\ ScrollContainer.navigation s' = ScrollContainer.navigation s)
  /\ (forall y now,
        ScrollContainer.touchStartYRef s - y = delta ->
        let s' := ScrollContainer.handleTouchEnd c y now s in
        ScrollContainer.currentSection s' = ScrollContainer.currentSection s
        /\ ScrollContainer.throttleRefs s' = ScrollContainer.throttleRefs s
        /\ ScrollContainer.navigation s' = ScrollContainer.navigation s)
  /\ (forall now s', s' = ScrollContainer.throttledWheelHandler c delta now s
                     \/ (exists y, ScrollContainer.touchStartYRef s - y = delta
                                   /\ s' = ScrollContainer.handleTouchEnd
                                             c y now s) ->
        forall isMomentum later,
          ScrollThrottle.isThrottled (ScrollContainer.throttle c) isMomentum
            later (ScrollContainer.throttleRefs s')
          = ScrollThrottle.isThrottled (ScrollContainer.throttle c) isMomentum
              later (ScrollContainer.throttleRefs s)).
Proof.
  intros Hout.
  assert (Hwheel : forall now,
             ScrollContainer.navigation
               (ScrollContainer.throttledWheelHandler c delta now s)
             = ScrollContainer.navigation s).
  { intros now. now rewrite wheel_out_of_range. }
  assert (Htouch : forall y now,
             ScrollContainer.touchStartYRef s - y = delta ->
             ScrollContainer.navigation
               (ScrollContainer.handleTouchEnd c y now s)
             = ScrollContainer.navigation s).
  { intros y now Hy. subst delta.
    destruct (touchEnd_out_of_range c y now s Hout) as [-> | ->];
      reflexivity. }
  split; [|split].
  - intros now s'; subst s'. specialize (Hwheel now).
    unfold ScrollContainer.navigation in Hwheel.
    split; [congruence|]. split; [congruence|].
    exact (Hwheel).
  - intros y now Hy s'; subst s'. specialize (Htouch y now Hy).
    pose proof Htouch as Hnav.
    unfold ScrollContainer.navigation in Htouch.
    split; [congruence|]. split; [congruence|exact Hnav].
  - intros now s' Hs' m later.
    assert (ScrollContainer.navigation s' = ScrollContainer.navigation s)
      as Hnav.
    { destruct Hs' as [-> | (y & Hy & ->)]; auto. }
    unfold ScrollContainer.navigation in Hnav.
    replace (ScrollContainer.throttleRefs s')
      with (ScrollContainer.throttleRefs s) by congruence.
    reflexivity.
Qed.

(** The bounds scenario of the specification: four sections, index 0, a
    backward wheel step at an instant when neither the lock nor the
    throttle stands in the way. *)
Lemma out_of_range_step_keeps_throttle_witness :
  let c := ScrollContainer.useScrollContainer 4 in
  let s := ScrollContainer.mount Scenario.fourSections in
  let s' := ScrollContainer.throttledWheelHandler c (-50) 10000 s in
  ScrollContainer.currentSection s' = 0
  /\ ScrollContainer.throttleRefs s' = ScrollThrottle.initial
  /\ ScrollContainer.navigation s' = ScrollContainer.navigation s.
Proof.
  refine (proj1 (out_of_range_step_keeps_throttle
                   (ScrollContainer.useScrollContainer 4)
                   (ScrollContainer.mount Scenario.fourSections) (-50) _)
                10000).
  cbn. lia.
Defined.

(** After that rejected step an in-range step at the very same instant is
    accepted: the rejection consumed no throttle window. *)
Example rejected_then_accepted :
  let c := ScrollContainer.useScrollContainer 4 in
  let s := ScrollContainer.mount Scenario.fourSections in
  ScrollContainer.isScrollingRef s = false
  /\ ScrollThrottle.isThrottled (ScrollContainer.throttle c) false 10000
       (ScrollContainer.throttleRefs s) = false
  /\ ScrollContainer.currentSection
       (ScrollContainer.run c [(10000, ScrollContainer.Wheel (-50))] s) = 0
  /\ ScrollContainer.currentSection
       (ScrollContainer.run c [(10000, ScrollContainer.Wheel (-50));
                               (10000, ScrollContainer.Wheel 50)] s) = 1.
Proof. vm_compute. repeat split; reflexivity. Qed.

(* ------------------------------------------------------------------ *)
(** ** The watchdog *)
(* ------------------------------------------------------------------ *)

(** C7.  One watchdog tick at [now]: if the lock is held and
    [now - transitionStartedAt] exceeds 5000, the lock is released (and
    only the lock and the safety timer change); in particular a transition
    started at [now - 6000] is unlocked by one tick; a tick while idle, or
    while the transition is at most 5000 old, changes nothing. *)
Theorem watchdog_tick (now : Z) (s : ScrollContainer.State) :
  (ScrollContainer.isScrollingRef s = true ->
   now - ScrollContainer.lastScrollTimeRef s > 5000 ->
   let s' := ScrollContainer.checkStuckState now s in
   ScrollContainer.isScrollingRef s' = false
   /\ ScrollContainer.scrollTimeoutRef s' = None
   /\ ScrollContainer.currentSection s' = ScrollContainer.currentSection s
   /\ ScrollContainer.lastScrollTimeRef s'
      = ScrollContainer.lastScrollTimeRef s
   /\ ScrollContainer.throttleRefs s' = ScrollContainer.throttleRefs s
   /\ ScrollContainer.detectionRefs s' = ScrollContainer.detectionRefs s
   /\ ScrollContainer.effects s' = ScrollContainer.effects s)
  /\ (ScrollContainer.isScrollingRef s = true ->
      ScrollContainer.lastScrollTimeRef s = now - 6000 ->
      ScrollContainer.isScrollingRef (ScrollContainer.checkStuckState now s)
      = false)
  /\ (ScrollContainer.isScrollingRef s = false
      \/ now - ScrollContainer.lastScrollTimeRef s <= 5000 ->
      ScrollContainer.checkStuckState now s = s).
Proof.
  unfold ScrollContainer.checkStuckState, ScrollContainer.STUCK_THRESHOLD.
  split; [|split].
  - intros Hlock Hold. cbv zeta.
    rewrite Hlock. settle_cmp. cbn. repeat split.
  - intros Hlock Hstart. rewrite Hlock, Hstart. settle_cmp. reflexivity.
  - intros [Hidle | Hyoung].
    + now rewrite Hidle.
    + settle_cmp. now rewrite andb_false_r.
Qed.

(** The recovery scenario: a swipe accepted at 1000 whose completion is
    never observed and whose safety timer never ran is unlocked by the
    tick at 7000, and left alone by the tick at 6000. *)
Lemma watchdog_tick_witness :
  ScrollContainer.isScrollingRef
    (ScrollContainer.checkStuckState 7000 Scenario.afterSwipe) = false
  /\ ScrollContainer.checkStuckState 6000 Scenario.afterSwipe
     = Scenario.afterSwipe.
Proof.
  split.
  - exact (proj1 (proj2 (watchdog_tick 7000 Scenario.afterSwipe))
                 eq_refl eq_refl).
  - apply (proj2 (proj2 (watchdog_tick 6000 Scenario.afterSwipe))).
    right. vm_compute. discriminate.
Defined.

(* ------------------------------------------------------------------ *)
(** ** End to end *)
(* ------------------------------------------------------------------ *)

(** Unfolds event delivery down to integer comparisons, and settles
    those. *)
Ltac crunch :=
  repeat progress
    (cbv [ScrollContainer.deliver ScrollContainer.handle
          ScrollContainer.fireDueTimer ScrollContainer.safetyTimeout
          ScrollContainer.unlock ScrollContainer.throttledWheelHandler
          ScrollContainer.scrollToSection ScrollContainer.set_detectionRefs
          ScrollContainer.mount ScrollContainer.wheelLabel
          ScrollContainer.navigation
          ScrollContainer.SAFETY_TIMEOUT
          ScrollContainer.currentSection ScrollContainer.isScrollingRef
          ScrollContainer.scrollTimeoutRef ScrollContainer.lastScrollTimeRef
          ScrollContainer.sectionRefs ScrollContainer.touchStartYRef
          ScrollContainer.touchStartTimeRef ScrollContainer.isTouchingRef
          ScrollContainer.detectionRefs ScrollContainer.throttleRefs
          ScrollContainer.effects
          ScrollContainer.totalSections ScrollContainer.detection
          ScrollContainer.throttle
          TouchpadDetection.detectInertia TouchpadDetection.isValidDelta
          TouchpadDetection.initial TouchpadDetection.minTimeGap
          TouchpadDetection.minDelta TouchpadDetection.lastDeltaRef
          TouchpadDetection.lastDirectionRef
          TouchpadDetection.lastEventTimeRef
          ScrollThrottle.isThrottled ScrollThrottle.updateThrottle
          ScrollThrottle.initial ScrollThrottle.normalThrottle
          ScrollThrottle.momentumThrottle ScrollThrottle.lastThrottleTimeRef
          Z.abs Z.sgn fst snd negb andb];
     settle_cmp;
     repeat match goal with
       | |- context [if ?b then false else false] => destruct b
       end).

(** Why the end-to-end scenario below asks for a first event at a clock
    reading of at least 600.  The throttle starts with timestamp 0, so on
    a clock that reads 0 at the first event that event is inside the
    normal window ([0 - 0 < 600]) and is dropped; the trace then yields a
    single accepted transition, at 5000, and ends on section 1, with
    either momentum duration (1200 or 1800).  [Date.now()] counts from
    1970 and is far above 600. *)
Example wheel_scenario_at_clock_zero :
  let s0 := ScrollContainer.mount Scenario.fiveSections in
  (let c := ScrollContainer.useScrollContainer 5 in
   ScrollThrottle.isThrottled (ScrollContainer.throttle c) false 0
     (ScrollContainer.throttleRefs s0) = true
   /\ ScrollContainer.currentSection
        (ScrollContainer.deliver c (0, ScrollContainer.Wheel 50) s0) = 0
   /\ ScrollContainer.accepted
        (ScrollContainer.run c (Scenario.wheelTrace 0) s0) = 1%nat
   /\ ScrollContainer.currentSection
        (ScrollContainer.run c (Scenario.wheelTrace 0) s0) = 1)
  /\ (let c := Scenario.cascadeConfig 5 in
      ScrollContainer.currentSection
        (ScrollContainer.deliver c (0, ScrollContainer.Wheel 50) s0) = 0
      /\ ScrollContainer.accepted
           (ScrollContainer.run c (Scenario.wheelTrace 0) s0) = 1%nat
      /\ ScrollContainer.currentSection
           (ScrollContainer.run c (Scenario.wheelTrace 0) s0) = 1).
Proof. vm_compute. repeat split; reflexivity. Qed.

(** C8.  Five sections, all with elements, index 0, [minDelta = 4],
    [minTimeGap = 1500], normal duration 600 and any momentum duration
    above 45 (1200 and 1800 included).  The instants 0, 20, 45 and 5000 of
    the scenario are offsets from the clock reading [start] of its first
    event: the wheel trace 50, 40, 28, 10 is delivered at [start],
    [start + 20], [start + 45], [start + 5000], for any [start >= 600],
    which every reading of [Date.now()] is.  Then exactly two transitions
    are accepted.  The first event is labelled intentional, moves the page
    to section 1 and stamps the throttle with [start].  The next two are
    labelled momentum, find the momentum-tier gate closed, and change
    nothing (they are stopped by the lock, and would be stopped by the
    throttle alone had the lock already been released).  The safety timer
    releases the lock at [start + 2000]; the last event is labelled
    intentional, finds the throttle expired, and moves the page to
    section 2. *)
Theorem wheel_scenario (start momentumDuration : Z)
    (refs : gmap Z ScrollContainer.Element) :
  600 <= start ->
  45 < momentumDuration ->
  (forall i, 0 <= i < 5 -> is_Some (refs !! i)) ->
  let c :=
    {| ScrollContainer.totalSections := 5;
       ScrollContainer.detection :=
         {| TouchpadDetection.minTimeGap := 1500;
            TouchpadDetection.minDelta := 4 |};
       ScrollContainer.throttle :=
         {| ScrollThrottle.normalThrottle := 600;
            ScrollThrottle.momentumThrottle := momentumDuration |} |} in
  let s0 := ScrollContainer.mount refs in
  let s1 := ScrollContainer.deliver c (start, ScrollContainer.Wheel 50) s0 in
  let s2 :=
    ScrollContainer.deliver c (start + 20, ScrollContainer.Wheel 40) s1 in
  let s3 :=
    ScrollContainer.deliver c (start + 45, ScrollContainer.Wheel 28) s2 in
  let s4 :=
    ScrollContainer.deliver c (start + 5000, ScrollContainer.Wheel 10) s3 in
  ScrollContainer.run c (Scenario.wheelTrace start) s0 = s4
  /\ (ScrollContainer.wheelLabel c 50 start s0 = false
      /\ ScrollContainer.currentSection s1 = 1
      /\ ScrollContainer.accepted s1 = 1%nat
      /\ ScrollContainer.throttleRefs s1
         = {| ScrollThrottle.lastThrottleTimeRef := start |})
  /\ (ScrollContainer.wheelLabel c 40 (start + 20) s1 = true
      /\ ScrollThrottle.isThrottled (ScrollContainer.throttle c) true
           (start + 20) (ScrollContainer.throttleRefs s1) = true
      /\ ScrollContainer.navigation s2 = ScrollContainer.navigation s1
      /\ ScrollContainer.navigation
           (ScrollContainer.throttledWheelHandler c 40 (start + 20)
              (ScrollContainer.unlock true s1))
         = ScrollContainer.navigation (ScrollContainer.unlock true s1))
  /\ (ScrollContainer.wheelLabel c 28 (start + 45) s2 = true
      /\ ScrollThrottle.isThrottled (ScrollContainer.throttle c) true
           (start + 45) (ScrollContainer.throttleRefs s2) = true
      /\ ScrollContainer.navigation s3 = ScrollContainer.navigation s2
      /\ ScrollContainer.navigation
           (ScrollContainer.throttledWheelHandler c 28 (start + 45)
              (ScrollContainer.unlock true s2))
         = ScrollContainer.navigation (ScrollContainer.unlock true s2))
  /\ (ScrollContainer.wheelLabel c 10 (start + 5000) s3 = false
      /\ ScrollThrottle.isThrottled (ScrollContainer.throttle c) false
           (start + 5000) (ScrollContainer.throttleRefs s3) = false
      /\ ScrollContainer.currentSection s4 = 2
      /\ ScrollContainer.accepted s4 = 2%nat).
Proof.
  intros Hstart Hdur Hreg c s0 s1 s2 s3 s4.
  destruct (Hreg 1 ltac:(lia)) as [el1 H1].
  destruct (Hreg 2 ltac:(lia)) as [el2 H2].
  change 1 with (0 + 1) in H1. change 2 with (0 + 1 + 1) in H2.
  split; [reflexivity|].
  assert (E1 : s1 =
    {| ScrollContainer.currentSection := 0 + 1;
       ScrollContainer.isScrollingRef := true;
       ScrollContainer.scrollTimeoutRef := Some (start + 2000);
       ScrollContainer.lastScrollTimeRef := start;
       ScrollContainer.sectionRefs := refs;
       ScrollContainer.touchStartYRef := 0;
       ScrollContainer.touchStartTimeRef := 0;
       ScrollContainer.isTouchingRef := false;
       ScrollContainer.detectionRefs :=
         {| TouchpadDetection.lastDeltaRef := 50;
            TouchpadDetection.lastDirectionRef := 1;
            TouchpadDetection.lastEventTimeRef := start |};
       ScrollContainer.throttleRefs :=
         {| ScrollThrottle.lastThrottleTimeRef := start |};
       ScrollContainer.effects :=
         [] ++ [ScrollContainer.ScrollIntoView el1 ScrollContainer.smooth;
                ScrollContainer.UpdateURL (0 + 1)] |}).
  { subst s1 s0 c. crunch; rewrite H1; reflexivity. }
  assert (E2 : s2 =
    ScrollContainer.set_detectionRefs
      {| TouchpadDetection.lastDeltaRef := 40;
         TouchpadDetection.lastDirectionRef := 1;
         TouchpadDetection.lastEventTimeRef := start + 20 |} s1).
  { subst s2. rewrite E1. subst c. crunch; reflexivity. }
  assert (E3 : s3 =
    ScrollContainer.set_detectionRefs
      {| TouchpadDetection.lastDeltaRef := 28;
         TouchpadDetection.lastDirectionRef := 1;
         TouchpadDetection.lastEventTimeRef := start + 45 |} s1).
  { subst s3. rewrite E2, E1. subst c. crunch; reflexivity. }
  assert (E4 : ScrollContainer.currentSection s4 = 2
               /\ ScrollContainer.accepted s4 = 2%nat).
  { subst s4. rewrite E3, E1. subst c. crunch; rewrite H2.
    split; reflexivity. }
  clearbody s1 s2 s3 s4. subst s0 s1 s2 s3 c.
  repeat split; try (crunch; reflexivity); try apply E4.
Qed.

(** The scenario on the hook's own parameters (momentum duration 1200),
    started at a reading of [Date.now()] in late 2025. *)
Lemma wheel_scenario_witness :
  let c := ScrollContainer.useScrollContainer 5 in
  let final :=
    ScrollContainer.run c (Scenario.wheelTrace 1762000000000)
                        (ScrollContainer.mount Scenario.fiveSections) in
  ScrollContainer.currentSection final = 2
  /\ ScrollContainer.accepted final = 2%nat.
Proof.
  intros c final.
  assert (Hreg : forall i, 0 <= i < 5 ->
                           is_Some (Scenario.fiveSections !! i)).
  { intros i Hi. apply attach_lookup. cbn. lia. }
  pose proof (wheel_scenario 1762000000000 1200 Scenario.fiveSections
                ltac:(lia) ltac:(lia) Hreg) as H.
  cbv zeta in H.
  destruct H as (Hrun & _ & _ & _ & (_ & _ & Hcur & Hacc)).
  split.
  - exact (eq_trans (f_equal ScrollContainer.currentSection Hrun) Hcur).
  - exact (eq_trans (f_equal ScrollContainer.accepted Hrun) Hacc).
Defined.

(* ================================================================== *)
(** * Further properties of the hooks *)
(* ================================================================== *)

(* ------------------------------------------------------------------ *)
(** ** Completion reports *)
(* ------------------------------------------------------------------ *)

Section Observer.
Import ScrollContainer.

Lemma unlock_idempotent (s : State) : unlock true (unlock true s) = unlock true s.
Proof. reflexivity. Qed.

Lemma observer_fold_unlocked (entries : list Entry) (s : State) :
  observerCallback entries (unlock true s) = unlock true s.
Proof.
  unfold observerCallback.
  induction entries as [|e rest IH]; [reflexivity|].
  cbn [fold_left]. destruct (inView e); [rewrite unlock_idempotent|]; exact IH.
Qed.

Lemma observer_fold (entries : list Entry) (s : State) :
  observerCallback entries s
  = if existsb inView entries then unlock true s else s.
Proof.
  revert s; induction entries as [|e rest IH]; intros s; [reflexivity|].
  cbn [existsb]. unfold observerCallback. cbn [fold_left].
  destruct (inView e); cbn [orb].
  - apply observer_fold_unlocked.
  - apply IH.
Qed.

End Observer.

(** X1.  The observer callback releases the lock and cancels the safety
    timer as soon as one entry of the batch is intersecting with a ratio
    strictly above one half, and otherwise returns the state untouched;
    everything but the lock and the timer is kept in both cases, and
    handling the same batch again changes nothing more. *)
Theorem observer_callback_spec (entries : list ScrollContainer.Entry)
    (s : ScrollContainer.State) :
  (forall e, ScrollContainer.inView e = true <->
             ScrollContainer.isIntersecting e = true
             /\ (1 # 2 < ScrollContainer.intersectionRatio e)%Q)
  /\ ScrollContainer.observerCallback entries s
     = (if existsb ScrollContainer.inView entries
        then ScrollContainer.unlock true s else s)
  /\ ScrollContainer.observerCallback entries
       (ScrollContainer.observerCallback entries s)
     = ScrollContainer.observerCallback entries s
  /\ ScrollContainer.currentSection
       (ScrollContainer.observerCallback entries s)
     = ScrollContainer.currentSection s
  /\ ScrollContainer.throttleRefs (ScrollContainer.observerCallback entries s)
     = ScrollContainer.throttleRefs s
  /\ ScrollContainer.effects (ScrollContainer.observerCallback entries s)
     = ScrollContainer.effects s.
Proof.
  split.
  { intros e. unfold ScrollContainer.inView.
    rewrite andb_true_iff, negb_true_iff.
    split; intros [Hi Hr]; (split; [exact Hi|]).
    - apply Qnot_le_lt. intros Hle.
      apply Qle_bool_iff in Hle. congruence.
    - destruct (Qle_bool _ _) eqn:E; [|reflexivity].
      apply Qle_bool_iff in E. exfalso. exact (Qlt_not_le _ _ Hr E). }
  rewrite !observer_fold.
  destruct (existsb ScrollContainer.inView entries); repeat split.
Qed.

(* ------------------------------------------------------------------ *)
(** ** States reachable from mount *)
(* ------------------------------------------------------------------ *)

Section Reachable.
Import ScrollContainer.
Import Trace.

Lemma run_invariant (P : State -> Prop) (c : Config) :
  (forall tev s, P s -> P (deliver c tev s)) ->
  forall trace s, P s -> P (run c trace s).
Proof.
  intros Hstep trace. unfold run.
  induction trace as [|tev rest IH]; intros s Hs; [exact Hs|].
  cbn [fold_left]. apply IH, Hstep, Hs.
Qed.

Lemma armed_scrollToSection (i now : Z) (s : State) :
  armed s -> armed (scrollToSection i now s).
Proof.
  intros H. unfold scrollToSection.
  destruct (sectionRefs s !! i); [right; reflexivity | exact H].
Qed.

Lemma armed_fireDueTimer (now : Z) (s : State) :
  armed s -> armed (fireDueTimer now s).
Proof.
  intros H. unfold fireDueTimer.
  destruct (scrollTimeoutRef s); [|exact H].
  destruct (_ <=? _); [left; reflexivity | exact H].
Qed.

Lemma armed_handle (c : Config) (ev : Event) (now : Z) (s : State) :
  cleans ev = false -> armed s -> armed (handle c ev now s).
Proof.
  intros Hsteady H. destruct ev; cbn [handle].
  - destruct (wheel_outcome c deltaY now s) as [-> | ->].
    + exact H.
    + apply armed_scrollToSection. exact H.
  - unfold handleTouchStart. destruct (isScrollingRef s) eqn:E; [exact H|].
    left. reflexivity.
  - exact H.
  - destruct (touchEnd_outcome c clientY now s) as [-> | [-> | ->]].
    + exact H.
    + exact H.
    + apply armed_scrollToSection. exact H.
  - exact H.
  - rewrite observer_fold. destruct (existsb _ _); [left; reflexivity|exact H].
  - unfold checkStuckState. destruct (_ && _); [left; reflexivity|exact H].
  - apply armed_scrollToSection. exact H.
  - unfold handlePopStateNavigation.
    destruct (sectionRefs s !! sectionIndex); exact H.
  - unfold handleURLSectionChange.
    destruct (sectionRefs s !! sectionIndex); exact H.
  - discriminate.
Qed.

Lemma armed_run_from (c : Config) (trace : list (Z * Event)) :
  forall s, steadyProps trace -> armed s -> armed (run c trace s).
Proof.
  unfold run, steadyProps.
  induction trace as [|[now ev] rest IH]; intros s Hsteady H; [exact H|].
  cbn [fold_left]. apply Forall_cons in Hsteady as [Hev Hrest].
  apply IH; [exact Hrest|].
  unfold deliver; cbn [fst snd] in *.
  apply armed_handle; [exact Hev|]. apply armed_fireDueTimer, H.
Qed.

Lemma armed_run (c : Config) (trace : list (Z * Event))
    (refs : gmap Z Element) :
  steadyProps trace -> armed (run c trace (mount refs)).
Proof.
  intros Hsteady. apply armed_run_from; [exact Hsteady|]. left. reflexivity.
Qed.

Lemma timerOwned_frame (s s' : State) :
  isScrollingRef s' = isScrollingRef s ->
  scrollTimeoutRef s' = scrollTimeoutRef s ->
  lastScrollTimeRef s' = lastScrollTimeRef s ->
  timerOwned s -> timerOwned s'.
Proof.
  unfold timerOwned. intros -> -> ->. exact (fun H => H).
Qed.

Lemma timerOwned_scrollToSection (i now : Z) (s : State) :
  timerOwned s -> timerOwned (scrollToSection i now s).
Proof.
  intros H. unfold scrollToSection.
  destruct (sectionRefs s !! i); [right; split; reflexivity | exact H].
Qed.

Lemma timerOwned_deliver (c : Config) (tev : Z * Event) (s : State) :
  timerOwned s -> timerOwned (deliver c tev s).
Proof.
  intros H. destruct tev as [now ev]. unfold deliver; cbn [fst snd].
  assert (Hf : timerOwned (fireDueTimer now s)).
  { unfold fireDueTimer. destruct (scrollTimeoutRef s) eqn:E; [|exact H].
    destruct (_ <=? _); [left; reflexivity | exact H]. }
  revert Hf. generalize (fireDueTimer now s). clear s H. intros s H.
  destruct ev; cbn [handle].
  - destruct (wheel_outcome c deltaY now s) as [-> | ->].
    + now apply (timerOwned_frame s).
    + apply timerOwned_scrollToSection. now apply (timerOwned_frame s).
  - unfold handleTouchStart. destruct (isScrollingRef s) eqn:E; [exact H|].
    apply (timerOwned_frame s); [now rewrite E | reflexivity | reflexivity
                                | exact H].
  - exact H.
  - destruct (touchEnd_outcome c clientY now s) as [-> | [-> | ->]].
    + exact H.
    + now apply (timerOwned_frame s).
    + apply timerOwned_scrollToSection. now apply (timerOwned_frame s).
  - now apply (timerOwned_frame s).
  - rewrite observer_fold. destruct (existsb _ _); [left; reflexivity|exact H].
  - unfold checkStuckState. destruct (_ && _); [left; reflexivity|exact H].
  - now apply timerOwned_scrollToSection.
  - unfold handlePopStateNavigation.
    destruct (sectionRefs s !! sectionIndex); [|exact H].
    now apply (timerOwned_frame s).
  - unfold handleURLSectionChange.
    destruct (sectionRefs s !! sectionIndex); [|exact H].
    now apply (timerOwned_frame s).
  - left. reflexivity.
Qed.

Lemma settled_scrollToSection (refs : gmap Z Element) (i now : Z)
    (s : State) :
  settled refs s -> settled refs (scrollToSection i now s).
Proof.
  intros [Hr Hc]. unfold scrollToSection.
  destruct (sectionRefs s !! i) eqn:E; [|now split].
  split; [exact Hr|]. right. cbn. rewrite <- Hr, E. eauto.
Qed.

Lemma settled_showSection (refs : gmap Z Element) (i : Z) (b : Behavior)
    (el : Element) (s : State) :
  sectionRefs s !! i = Some el ->
  settled refs s -> settled refs (showSection el b i s).
Proof.
  intros E [Hr Hc]. split; [exact Hr|]. right. cbn. rewrite <- Hr, E. eauto.
Qed.

Lemma settled_frame (refs : gmap Z Element) (s s' : State) :
  sectionRefs s' = sectionRefs s ->
  currentSection s' = currentSection s ->
  settled refs s -> settled refs s'.
Proof. intros E1 E2 [Hr Hc]. split; [congruence|]. now rewrite E2. Qed.

Lemma settled_deliver (refs : gmap Z Element) (c : Config)
    (tev : Z * Event) (s : State) :
  settled refs s -> settled refs (deliver c tev s).
Proof.
  intros H. destruct tev as [now ev]. unfold deliver; cbn [fst snd].
  assert (Hf : settled refs (fireDueTimer now s)).
  { unfold fireDueTimer. destruct (scrollTimeoutRef s); [|exact H].
    destruct (_ <=? _); [|exact H].
    now apply (settled_frame refs s). }
  revert Hf. generalize (fireDueTimer now s). clear s H. intros s H.
  destruct ev; cbn [handle].
  - destruct (wheel_outcome c deltaY now s) as [-> | ->].
    + now apply (settled_frame refs s).
    + apply settled_scrollToSection. now apply (settled_frame refs s).
  - unfold handleTouchStart. destruct (isScrollingRef s); [exact H|].
    now apply (settled_frame refs s).
  - exact H.
  - destruct (touchEnd_outcome c clientY now s) as [-> | [-> | ->]].
    + exact H.
    + now apply (settled_frame refs s).
    + apply settled_scrollToSection. now apply (settled_frame refs s).
  - now apply (settled_frame refs s).
  - rewrite observer_fold. destruct (existsb _ _); [|exact H].
    now apply (settled_frame refs s).
  - unfold checkStuckState. destruct (_ && _); [|exact H].
    now apply (settled_frame refs s).
  - now apply settled_scrollToSection.
  - unfold handlePopStateNavigation.
    destruct (sectionRefs s !! sectionIndex) eqn:E; [|exact H].
    now apply settled_showSection.
  - unfold handleURLSectionChange.
    destruct (sectionRefs s !! sectionIndex) eqn:E; [|exact H].
    now apply settled_showSection.
  - now apply (settled_frame refs s).
Qed.

End Reachable.

(** X2.  The safety timer and the lock, in every state reached from mount
    by any trace of events, re-runs of the observer effect included: an
    armed timer always belongs to a held lock and is due exactly 2000
    after the recorded transition start.  Conversely, as long as the
    observer effect has not been re-run (the host kept [totalSections] as
    it was), a held lock always has its timer armed. *)
Theorem lock_keeps_safety_timer (c : ScrollContainer.Config)
    (refs : gmap Z ScrollContainer.Element)
    (trace : list (Z * ScrollContainer.Event)) :
  let s := ScrollContainer.run c trace (ScrollContainer.mount refs) in
  (ScrollContainer.scrollTimeoutRef s = None
   \/ (ScrollContainer.isScrollingRef s = true
       /\ ScrollContainer.scrollTimeoutRef s
          = Some (ScrollContainer.lastScrollTimeRef s + 2000)))
  /\ (Trace.steadyProps trace ->
      ScrollContainer.isScrollingRef s = false
      \/ ScrollContainer.scrollTimeoutRef s
         = Some (ScrollContainer.lastScrollTimeRef s + 2000)).
Proof.
  intros s. split.
  - apply (run_invariant Trace.timerOwned).
    + intros tev t. apply timerOwned_deliver.
    + left. reflexivity.
  - intros Hsteady. now apply armed_run.
Qed.

Lemma lock_keeps_safety_timer_witness :
  ScrollContainer.isScrollingRef Scenario.afterSwipe = false
  \/ ScrollContainer.scrollTimeoutRef Scenario.afterSwipe
     = Some (ScrollContainer.lastScrollTimeRef Scenario.afterSwipe + 2000).
Proof.
  refine (proj2 (lock_keeps_safety_timer
                   (ScrollContainer.useScrollContainer 5)
                   Scenario.fiveSections
                   [(1000, ScrollContainer.Wheel 50)]) _).
  repeat constructor.
Defined.

(** X3.  No lasting lock-up while the props are steady: in a state reached
    from mount by a trace in which the observer effect was never re-run,
    once the clock has reached 2000 after the recorded transition start,
    the lock is found released before the next event is handled, whether
    or not the completion was ever observed. *)
Theorem lock_released_after_safety_timeout (c : ScrollContainer.Config)
    (refs : gmap Z ScrollContainer.Element)
    (trace : list (Z * ScrollContainer.Event)) (now : Z) :
  Trace.steadyProps trace ->
  ScrollContainer.lastScrollTimeRef
    (ScrollContainer.run c trace (ScrollContainer.mount refs)) + 2000 <= now ->
  ScrollContainer.isScrollingRef
    (ScrollContainer.fireDueTimer now
       (ScrollContainer.run c trace (ScrollContainer.mount refs))) = false.
Proof.
  intros Hsteady Hnow.
  destruct (armed_run c trace refs Hsteady) as [Hidle | Harmed];
    unfold ScrollContainer.fireDueTimer.
  - destruct (ScrollContainer.scrollTimeoutRef _); [|exact Hidle].
    destruct (_ <=? _); [reflexivity | exact Hidle].
  - rewrite Harmed. unfold ScrollContainer.SAFETY_TIMEOUT.
    settle_cmp. reflexivity.
Qed.

Lemma lock_released_after_safety_timeout_witness :
  ScrollContainer.isScrollingRef Scenario.afterSwipe = true
  /\ ScrollContainer.isScrollingRef
       (ScrollContainer.fireDueTimer 3000 Scenario.afterSwipe) = false.
Proof.
  split; [reflexivity|].
  apply (lock_released_after_safety_timeout
           (ScrollContainer.useScrollContainer 5) Scenario.fiveSections
           [(1000, ScrollContainer.Wheel 50)] 3000).
  - repeat constructor.
  - vm_compute. discriminate.
Defined.

(** X4.  While the props are steady and the safety timer is delivered on
    time, the watchdog has nothing to do: in every state reached from
    mount by a trace in which the observer effect was never re-run, a
    watchdog tick delivered at any instant leaves exactly the state that
    the timer queue leaves. *)
Theorem watchdog_redundant_with_timely_timer (c : ScrollContainer.Config)
    (refs : gmap Z ScrollContainer.Element)
    (trace : list (Z * ScrollContainer.Event)) (now : Z) :
  Trace.steadyProps trace ->
  ScrollContainer.deliver c (now, ScrollContainer.WatchdogTick)
    (ScrollContainer.run c trace (ScrollContainer.mount refs))
  = ScrollContainer.fireDueTimer now
      (ScrollContainer.run c trace (ScrollContainer.mount refs)).
Proof.
  intros Hsteady.
  pose proof (armed_run c trace refs Hsteady) as Harm.
  revert Harm.
  generalize (ScrollContainer.run c trace (ScrollContainer.mount refs)).
  intros s Harm.
  unfold ScrollContainer.deliver; cbn [fst snd ScrollContainer.handle].
  destruct Harm as [Hidle | Harmed].
  - unfold ScrollContainer.fireDueTimer.
    destruct (ScrollContainer.scrollTimeoutRef s) as [due|].
    + destruct (due <=? now); unfold ScrollContainer.checkStuckState;
        [reflexivity | now rewrite Hidle].
    + unfold ScrollContainer.checkStuckState. now rewrite Hidle.
  - unfold ScrollContainer.fireDueTimer. rewrite Harmed.
    unfold ScrollContainer.SAFETY_TIMEOUT.
    destruct (Z.leb_spec (ScrollContainer.lastScrollTimeRef s + 2000) now).
    + reflexivity.
    + unfold ScrollContainer.checkStuckState,
        ScrollContainer.STUCK_THRESHOLD.
      settle_cmp. now rewrite andb_false_r.
Qed.

Lemma watchdog_redundant_with_timely_timer_witness :
  ScrollContainer.deliver (ScrollContainer.useScrollContainer 5)
    (7000, ScrollContainer.WatchdogTick) Scenario.afterSwipe
  = ScrollContainer.fireDueTimer 7000 Scenario.afterSwipe.
Proof.
  apply (watchdog_redundant_with_timely_timer
           (ScrollContainer.useScrollContainer 5) Scenario.fiveSections
           [(1000, ScrollContainer.Wheel 50)] 7000).
  repeat constructor.
Defined.



(** X5.  The current section never leaves the page: when the host has
    attached elements only at indices inside [0, total-1] and there is at
    least one section, every state reached from mount, by any trace of
    wheel, touch, observer, watchdog, API, pop-state and URL events, has
    its current section inside [0, total-1], and the registry is the one
    given at mount. *)
Theorem current_section_in_range (c : ScrollContainer.Config)
    (refs : gmap Z ScrollContainer.Element) (total : Z)
    (trace : list (Z * ScrollContainer.Event)) :
  0 < total ->
  (forall j, is_Some (refs !! j) -> 0 <= j < total) ->
  0 <= ScrollContainer.currentSection
         (ScrollContainer.run c trace (ScrollContainer.mount refs)) < total
  /\ ScrollContainer.sectionRefs
       (ScrollContainer.run c trace (ScrollContainer.mount refs)) = refs.
Proof.
  intros Htotal Hrange.
  assert (H : Trace.settled refs
                (ScrollContainer.run c trace (ScrollContainer.mount refs))).
  { apply run_invariant.
    - intros tev s. apply settled_deliver.
    - split; [reflexivity | left; reflexivity]. }
  destruct H as [Hr [H0 | Hreg]].
  - split; [rewrite H0; lia | exact Hr].
  - split; [apply Hrange, Hreg | exact Hr].
Qed.

Lemma current_section_in_range_witness :
  0 <= ScrollContainer.currentSection
         (ScrollContainer.run (ScrollContainer.useScrollContainer 5)
            (Scenario.wheelTrace 600)
            (ScrollContainer.mount Scenario.fiveSections)) < 5.
Proof.
  refine (proj1 (current_section_in_range
                   (ScrollContainer.useScrollContainer 5)
                   Scenario.fiveSections 5 (Scenario.wheelTrace 600)
                   ltac:(lia) _)).
  intros j Hj. apply attach_lookup in Hj. cbn in Hj. lia.
Defined.

(* ------------------------------------------------------------------ *)
(** ** What one gesture can do *)
(* ------------------------------------------------------------------ *)

Section Gestures.
Import ScrollContainer.

Lemma currentSection_scrollToSection (i now : Z) (s : State) :
  currentSection (scrollToSection i now s) = currentSection s
  \/ currentSection (scrollToSection i now s) = i.
Proof.
  unfold scrollToSection. destruct (sectionRefs s !! i); [right|left];
    reflexivity.
Qed.

Lemma currentSection_fireDueTimer (now : Z) (s : State) :
  currentSection (fireDueTimer now s) = currentSection s.
Proof.
  unfold fireDueTimer. destruct (scrollTimeoutRef s); [|reflexivity].
  destruct (_ <=? _); reflexivity.
Qed.

Lemma directionOf_unit (delta : Z) :
  directionOf delta = 1 \/ directionOf delta = -1.
Proof. unfold directionOf. destruct (delta >? 0); auto. Qed.

Lemma wheel_unregistered (c : Config) (deltaY now : Z) (s : State) :
  sectionRefs s !! (currentSection s + directionOf deltaY) = None ->
  throttledWheelHandler c deltaY now s = classified c deltaY now s.
Proof.
  intros Hnone.
  destruct (wheel_outcome c deltaY now s) as [-> | ->]; [reflexivity|].
  apply scrollToSection_unregistered. exact Hnone.
Qed.

End Gestures.

(** X6.  One gesture, at most one section: whatever the raw magnitude, a
    wheel or touch event leaves the current section where it was or moves
    it to a direct neighbour. *)
Theorem gesture_moves_at_most_one (c : ScrollContainer.Config)
    (ev : ScrollContainer.Event) (now : Z) (s : ScrollContainer.State) :
  match ev with
  | ScrollContainer.Wheel _ | ScrollContainer.TouchStart _
  | ScrollContainer.TouchMove | ScrollContainer.TouchEnd _
  | ScrollContainer.TouchCancel =>
      Z.abs (ScrollContainer.currentSection
               (ScrollContainer.deliver c (now, ev) s)
             - ScrollContainer.currentSection s) <= 1
  | _ => True
  end.
Proof.
  pose proof (currentSection_fireDueTimer now s) as Hf.
  destruct ev; try exact I;
    unfold ScrollContainer.deliver; cbn [fst snd ScrollContainer.handle].
  - destruct (wheel_outcome c deltaY now (ScrollContainer.fireDueTimer now s))
      as [-> | ->].
    + cbn. lia.
    + destruct (currentSection_scrollToSection
                  (ScrollContainer.currentSection
                     (ScrollContainer.fireDueTimer now s)
                   + ScrollContainer.directionOf deltaY) now
                  (ScrollContainer.classified c deltaY now
                     (ScrollContainer.fireDueTimer now s))) as [-> | ->];
        cbn; destruct (directionOf_unit deltaY); lia.
  - unfold ScrollContainer.handleTouchStart.
    destruct (ScrollContainer.isScrollingRef _); cbn; lia.
  - unfold ScrollContainer.handleTouchMove. lia.
  - destruct (touchEnd_outcome c clientY now
                (ScrollContainer.fireDueTimer now s)) as [-> | [-> | ->]].
    + lia.
    + cbn. lia.
    + match goal with
      | |- context [ScrollContainer.directionOf ?d] =>
          pose proof (directionOf_unit d) as Hd;
          set (k := ScrollContainer.directionOf d) in *
      end.
      match goal with
      | |- context [ScrollContainer.scrollToSection ?i ?n ?x] =>
          destruct (currentSection_scrollToSection i n x) as [-> | ->]
      end; cbn; lia.
  - cbn. lia.
Qed.

(** X7.  The acceptance rule of the wheel handler.  A wheel event starts a
    transition exactly when its magnitude reaches [minDelta], the lock is
    free, the throttle tier chosen by the event's own label has expired,
    the neighbouring index is inside [0, total-1] and that index has an
    element.  Then the page moves to the neighbour, the lock is taken, the
    throttle and the transition start are stamped with the current instant
    and one more URL update is requested.  In every other case no
    navigation field changes. *)
Theorem wheel_acceptance_rule (c : ScrollContainer.Config)
    (deltaY now : Z) (s : ScrollContainer.State) :
  let next :=
    ScrollContainer.currentSection s + ScrollContainer.directionOf deltaY in
  let admitted :=
    TouchpadDetection.minDelta (ScrollContainer.detection c) <= Z.abs deltaY
    /\ ScrollContainer.isScrollingRef s = false
    /\ ScrollThrottle.isThrottled (ScrollContainer.throttle c)
         (ScrollContainer.wheelLabel c deltaY now s) now
         (ScrollContainer.throttleRefs s) = false
    /\ 0 <= next < ScrollContainer.totalSections c
    /\ is_Some (ScrollContainer.sectionRefs s !! next) in
  let s' := ScrollContainer.throttledWheelHandler c deltaY now s in
  (admitted ->
   ScrollContainer.currentSection s' = next
   /\ ScrollContainer.isScrollingRef s' = true
   /\ ScrollContainer.lastScrollTimeRef s' = now
   /\ ScrollContainer.throttleRefs s'
      = {| ScrollThrottle.lastThrottleTimeRef := now |}
   /\ ScrollContainer.accepted s' = S (ScrollContainer.accepted s))
  /\ (~ admitted ->
      ScrollContainer.navigation s' = ScrollContainer.navigation s).
Proof.
  intros next admitted s'. subst s'. split.
  - intros (Hbig & Hidle & Hthr & Hin & [el Hel]).
    rewrite (wheel_accepts c deltaY now s Hbig Hidle Hthr Hin).
    fold next.
    rewrite (scrollToSection_registered next now _ el) by exact Hel.
    cbn. repeat split.
    unfold ScrollContainer.accepted. cbn.
    rewrite List.filter_app, length_app. cbn. lia.
  - intros Hno.
    destruct (Z.le_gt_cases
                (TouchpadDetection.minDelta (ScrollContainer.detection c))
                (Z.abs deltaY)) as [Hbig|Hsmall];
      [|now rewrite wheel_noise by lia].
    destruct (ScrollContainer.isScrollingRef s) eqn:Hlock;
      [now rewrite wheel_locked|].
    destruct (ScrollThrottle.isThrottled (ScrollContainer.throttle c)
                (ScrollContainer.wheelLabel c deltaY now s) now
                (ScrollContainer.throttleRefs s)) eqn:Hthr;
      [now rewrite wheel_throttled|].
    destruct (decide (0 <= next < ScrollContainer.totalSections c))
      as [Hin|Hout]; [|now rewrite wheel_out_of_range].
    destruct (ScrollContainer.sectionRefs s !! next) as [el|] eqn:Hel.
    + exfalso. apply Hno.
      exact (conj Hbig (conj eq_refl (conj eq_refl (conj Hin
               (ex_intro _ el eq_refl))))).
    + now rewrite wheel_unregistered.
Qed.

(** X8.  The throttle window holds against every gesture: a wheel or
    touch-end event handled less than [min normal momentum] after the
    throttle stamp changes no navigation field, whatever label the
    classifier gives it and whether or not the lock is held. *)
Theorem throttle_window_blocks_gestures (c : ScrollContainer.Config)
    (now : Z) (s : ScrollContainer.State) :
  now - ScrollThrottle.lastThrottleTimeRef (ScrollContainer.throttleRefs s)
    < Z.min (ScrollThrottle.normalThrottle (ScrollContainer.throttle c))
            (ScrollThrottle.momentumThrottle (ScrollContainer.throttle c)) ->
  (forall deltaY,
      ScrollContainer.navigation
        (ScrollContainer.throttledWheelHandler c deltaY now s)
      = ScrollContainer.navigation s)
  /\ (forall touchEndY,
        ScrollContainer.navigation
          (ScrollContainer.handleTouchEnd c touchEndY now s)
        = ScrollContainer.navigation s).
Proof.
  intros Hwin. split.
  - intros deltaY. rewrite wheel_throttled; [reflexivity|].
    unfold ScrollThrottle.isThrottled.
    destruct (ScrollContainer.wheelLabel c deltaY now s); settle_cmp;
      reflexivity.
  - intros y. unfold ScrollContainer.handleTouchEnd.
    destruct (negb _); [reflexivity|].
    destruct (_ <? ScrollContainer.MIN_TOUCH_DISTANCE); [reflexivity|].
    destruct (_ >? ScrollContainer.MAX_TOUCH_TIME); [reflexivity|].
    unfold ScrollThrottle.isThrottled.
    cbn [ScrollContainer.set_isTouchingRef ScrollContainer.throttleRefs].
    settle_cmp. reflexivity.
Qed.

Lemma throttle_window_blocks_gestures_witness :
  ScrollContainer.navigation
    (ScrollContainer.throttledWheelHandler
       (ScrollContainer.useScrollContainer 5) 90 1400
       (ScrollContainer.unlock true Scenario.afterSwipe))
  = ScrollContainer.navigation
      (ScrollContainer.unlock true Scenario.afterSwipe).
Proof.
  refine (proj1 (throttle_window_blocks_gestures
                   (ScrollContainer.useScrollContainer 5) 1400
                   (ScrollContainer.unlock true Scenario.afterSwipe) _) 90).
  vm_compute. reflexivity.
Defined.

(* ------------------------------------------------------------------ *)
(** ** Inertia cascades *)
(* ------------------------------------------------------------------ *)

Section Cascades.
Import ScrollContainer.

Lemma fireDueTimer_keeps (now : Z) (s : State) :
  currentSection (fireDueTimer now s) = currentSection s
  /\ throttleRefs (fireDueTimer now s) = throttleRefs s
  /\ effects (fireDueTimer now s) = effects s
  /\ detectionRefs (fireDueTimer now s) = detectionRefs s.
Proof.
  unfold fireDueTimer. destruct (scrollTimeoutRef s); [|repeat split].
  destruct (_ <=? _); repeat split.
Qed.

Lemma wheel_momentum_in_window (c : Config) (deltaY now : Z) (s : State) :
  wheelLabel c deltaY now s = true ->
  now - ScrollThrottle.lastThrottleTimeRef (throttleRefs s)
    < ScrollThrottle.momentumThrottle (throttle c) ->
  throttledWheelHandler c deltaY now s = classified c deltaY now s.
Proof.
  intros Hlabel Hwin. apply wheel_throttled. rewrite Hlabel.
  unfold ScrollThrottle.isThrottled. settle_cmp. reflexivity.
Qed.

Lemma cascade_run (c : Config) (trace : list (Z * Event)) :
  forall s,
    Trace.cascade c (ScrollThrottle.lastThrottleTimeRef (throttleRefs s))
                  (detectionRefs s) trace ->
    currentSection (run c trace s) = currentSection s
    /\ throttleRefs (run c trace s) = throttleRefs s
    /\ effects (run c trace s) = effects s.
Proof.
  unfold run.
  induction trace as [|[now ev] rest IH]; intros s Hc; [repeat split|].
  cbn [fold_left].
  destruct (fireDueTimer_keeps now s) as (Fc & Ft & Fe & Fd).
  assert (Hstep :
    currentSection (deliver c (now, ev) s) = currentSection s
    /\ throttleRefs (deliver c (now, ev) s) = throttleRefs s
    /\ effects (deliver c (now, ev) s) = effects s
    /\ Trace.cascade c
         (ScrollThrottle.lastThrottleTimeRef
            (throttleRefs (deliver c (now, ev) s)))
         (detectionRefs (deliver c (now, ev) s)) rest).
  { unfold deliver; cbn [fst snd].
    destruct ev; cbn [Trace.cascade] in Hc; try contradiction;
      cbn [handle].
    - destruct Hc as (Hgap & Hdir & Hsame & Hdecay & Hwin & Hrest).
      rewrite wheel_momentum_in_window.
      + cbn [classified set_detectionRefs currentSection throttleRefs
               effects detectionRefs].
        rewrite Fc, Ft, Fe, Fd. repeat split. exact Hrest.
      + unfold wheelLabel. rewrite Fd. apply detectInertia_label. tauto.
      + rewrite Ft. exact Hwin.
    - rewrite observer_fold.
      destruct (existsb inView entries); cbn;
        rewrite ?Fc, ?Ft, ?Fe, ?Fd; repeat split; exact Hc.
    - unfold checkStuckState.
      destruct (_ && _); cbn; rewrite ?Fc, ?Ft, ?Fe, ?Fd; repeat split;
        exact Hc. }
  destruct Hstep as (Sc & St & Se & Hrest).
  destruct (IH _ Hrest) as (Rc & Rt & Re).
  repeat split; congruence.
Qed.

End Cascades.

(** X9.  The purpose of the library: an inertia cascade never navigates.
    Start in any state, whose throttle was stamped by the accepted swipe
    and whose classifier remembers a sample with a direction.  Let wheel
    events follow, each within [minTimeGap] of its predecessor, in that
    same direction, with a magnitude that does not grow (sub-threshold
    samples included), all inside the momentum window of the stamp, with
    completion reports, watchdog ticks and the safety timer interleaved
    at will.  Then the current section, the throttle stamp and the host
    log at the end are those of the start, even when the lock was
    released on the way. *)
Theorem cascade_is_suppressed (c : ScrollContainer.Config)
    (trace : list (Z * ScrollContainer.Event)) (s : ScrollContainer.State) :
  Trace.cascade c
    (ScrollThrottle.lastThrottleTimeRef (ScrollContainer.throttleRefs s))
    (ScrollContainer.detectionRefs s) trace ->
  ScrollContainer.currentSection (ScrollContainer.run c trace s)
  = ScrollContainer.currentSection s
  /\ ScrollContainer.throttleRefs (ScrollContainer.run c trace s)
     = ScrollContainer.throttleRefs s
  /\ ScrollContainer.effects (ScrollContainer.run c trace s)
     = ScrollContainer.effects s.
Proof. apply cascade_run. Qed.

(** A swipe accepted at 1000, its tail, a completion report at 1500 that
    releases the lock, and more of the tail up to 2100. *)
Lemma cascade_is_suppressed_witness :
  let trace :=
    [ (1020, ScrollContainer.Wheel 40); (1045, ScrollContainer.Wheel 28);
      (1500, ScrollContainer.Observed
               [ {| ScrollContainer.isIntersecting := true;
                    ScrollContainer.intersectionRatio := 3 # 4 |} ]);
      (1600, ScrollContainer.Wheel 28); (2100, ScrollContainer.Wheel 3) ] in
  ScrollContainer.currentSection
    (ScrollContainer.run (ScrollContainer.useScrollContainer 5) trace
                         Scenario.afterSwipe) = 1
  /\ ScrollContainer.isScrollingRef
       (ScrollContainer.run (ScrollContainer.useScrollContainer 5) trace
                            Scenario.afterSwipe) = false.
Proof.
  intros trace. split; [|reflexivity].
  refine (proj1 (cascade_is_suppressed
                   (ScrollContainer.useScrollContainer 5) trace
                   Scenario.afterSwipe _)).
  vm_compute. repeat split; (discriminate || reflexivity).
Defined.

(* ------------------------------------------------------------------ *)
(** ** Clock order *)
(* ------------------------------------------------------------------ *)

Section ClockOrder.
Import ScrollContainer.

Lemma throttle_scrollToSection (i now : Z) (s : State) :
  throttleRefs (scrollToSection i now s) = throttleRefs s
  \/ throttleRefs (scrollToSection i now s)
     = {| ScrollThrottle.lastThrottleTimeRef := now |}.
Proof.
  unfold scrollToSection. destruct (sectionRefs s !! i); [right|left];
    reflexivity.
Qed.

Lemma throttle_deliver (c : Config) (ev : Event) (now : Z) (s : State) :
  throttleRefs (deliver c (now, ev) s) = throttleRefs s
  \/ throttleRefs (deliver c (now, ev) s)
     = {| ScrollThrottle.lastThrottleTimeRef := now |}.
Proof.
  unfold deliver; cbn [fst snd].
  destruct (fireDueTimer_keeps now s) as (_ & Ft & _ & _).
  rewrite <- Ft. generalize (fireDueTimer now s). clear s Ft. intros s.
  destruct ev; cbn [handle].
  - destruct (wheel_outcome c deltaY now s) as [-> | ->]; [now left|].
    apply (throttle_scrollToSection _ now (classified c deltaY now s)).
  - unfold handleTouchStart. destruct (isScrollingRef s); now left.
  - now left.
  - destruct (touchEnd_outcome c clientY now s) as [-> | [-> | ->]];
      [now left | now left |].
    apply (throttle_scrollToSection _ now (set_isTouchingRef false s)).
  - now left.
  - rewrite observer_fold. destruct (existsb _ _); now left.
  - unfold checkStuckState. destruct (_ && _); now left.
  - apply throttle_scrollToSection.
  - unfold handlePopStateNavigation.
    destruct (sectionRefs s !! sectionIndex); now left.
  - unfold handleURLSectionChange.
    destruct (sectionRefs s !! sectionIndex); now left.
  - now left.
Qed.

Lemma stamp_run (c : Config) (trace : list (Z * Event)) :
  forall from s,
    Trace.chronological from trace ->
    ScrollThrottle.lastThrottleTimeRef (throttleRefs s) <= from ->
    ScrollThrottle.lastThrottleTimeRef (throttleRefs s)
    <= ScrollThrottle.lastThrottleTimeRef (throttleRefs (run c trace s))
    <= Trace.lastInstant from trace.
Proof.
  unfold run.
  induction trace as [|[now ev] rest IH]; intros from s Hchr Hle.
  - cbn. lia.
  - cbn [fold_left Trace.lastInstant]. destruct Hchr as [Hfrom Hrest].
    assert (Hs : ScrollThrottle.lastThrottleTimeRef (throttleRefs s)
                 <= ScrollThrottle.lastThrottleTimeRef
                      (throttleRefs (deliver c (now, ev) s)) <= now).
    { destruct (throttle_deliver c ev now s) as [-> | ->]; cbn; lia. }
    specialize (IH now (deliver c (now, ev) s) Hrest ltac:(lia)).
    lia.
Qed.

End ClockOrder.

(** X10.  The throttle stamp never runs backwards and never runs ahead of
    the clock: along any trace delivered in clock order, starting from a
    state whose stamp is not in the future, the stamp at the end is at
    least the stamp at the start and at most the instant of the last
    event. *)
Theorem throttle_stamp_monotone (c : ScrollContainer.Config)
    (trace : list (Z * ScrollContainer.Event)) (from : Z)
    (s : ScrollContainer.State) :
  Trace.chronological from trace ->
  ScrollThrottle.lastThrottleTimeRef (ScrollContainer.throttleRefs s)
    <= from ->
  ScrollThrottle.lastThrottleTimeRef (ScrollContainer.throttleRefs s)
  <= ScrollThrottle.lastThrottleTimeRef
       (ScrollContainer.throttleRefs (ScrollContainer.run c trace s))
  <= Trace.lastInstant from trace.
Proof. apply stamp_run. Qed.

Lemma throttle_stamp_monotone_witness :
  0 <= ScrollThrottle.lastThrottleTimeRef
         (ScrollContainer.throttleRefs
            (ScrollContainer.run (ScrollContainer.useScrollContainer 5)
               (Scenario.wheelTrace 600)
               (ScrollContainer.mount Scenario.fiveSections)))
    <= 5600.
Proof.
  refine (throttle_stamp_monotone (ScrollContainer.useScrollContainer 5)
            (Scenario.wheelTrace 600) 0
            (ScrollContainer.mount Scenario.fiveSections) _ _).
  - cbn. lia.
  - cbn. lia.
Defined.

(* ------------------------------------------------------------------ *)
(** ** Touch gestures *)
(* ------------------------------------------------------------------ *)

Section Touch.
Import ScrollContainer.

Lemma touchEnd_inactive (c : Config) (y now : Z) (s : State) :
  isTouchingRef (handleTouchEnd c y now s) = false.
Proof.
  unfold handleTouchEnd.
  destruct (isTouchingRef s) eqn:E; cbn [negb]; [|exact E].
  destruct (_ <? MIN_TOUCH_DISTANCE); [reflexivity|].
  destruct (_ >? MAX_TOUCH_TIME); [reflexivity|].
  destruct (ScrollThrottle.isThrottled _ _ _ _); [reflexivity|].
  destruct (_ && _); [|reflexivity].
  unfold scrollToSection.
  destruct (sectionRefs _ !! _); reflexivity.
Qed.

End Touch.

(** X11.  A touch stream is consumed by its first touch-end: a second
    touch-end, at any position and instant, returns the state as it is,
    and so does a touch-end that follows a touch-cancel.  One finger
    stroke can therefore start at most one transition. *)
Theorem touch_end_is_one_shot (c : ScrollContainer.Config)
    (s : ScrollContainer.State) (y1 t1 y2 t2 : Z) :
  ScrollContainer.handleTouchEnd c y2 t2
    (ScrollContainer.handleTouchEnd c y1 t1 s)
  = ScrollContainer.handleTouchEnd c y1 t1 s
  /\ ScrollContainer.handleTouchEnd c y2 t2
       (ScrollContainer.handleTouchCancel s)
     = ScrollContainer.handleTouchCancel s.
Proof.
  split.
  - unfold ScrollContainer.handleTouchEnd at 1.
    now rewrite touchEnd_inactive.
  - reflexivity.
Qed.

(** X12.  A whole touch stroke on an idle page.  A stroke shorter than 50
    or slower than 800 changes no navigation field.  A stroke of at least
    50 that takes at most 800, ends with the normal throttle tier expired
    and points at a neighbour that is in range and has an element, moves
    the page to that neighbour (the next section when the finger moved
    towards smaller coordinates, the previous one otherwise), takes the
    lock and stamps the throttle with the instant of the touch-end. *)
Theorem swipe_navigates (c : ScrollContainer.Config)
    (s : ScrollContainer.State) (y0 t0 y1 t1 : Z) :
  ScrollContainer.isScrollingRef s = false ->
  let s' :=
    ScrollContainer.handleTouchEnd c y1 t1
      (ScrollContainer.handleTouchStart y0 t0 s) in
  let next :=
    ScrollContainer.currentSection s + (if y0 >? y1 then 1 else -1) in
  (Z.abs (y0 - y1) < 50 \/ t1 - t0 > 800 ->
   ScrollContainer.navigation s' = ScrollContainer.navigation s)
  /\ (50 <= Z.abs (y0 - y1) ->
      t1 - t0 <= 800 ->
      ScrollThrottle.isThrottled (ScrollContainer.throttle c) false t1
        (ScrollContainer.throttleRefs s) = false ->
      0 <= next < ScrollContainer.totalSections c ->
      is_Some (ScrollContainer.sectionRefs s !! next) ->
      ScrollContainer.currentSection s' = next
      /\ ScrollContainer.isScrollingRef s' = true
      /\ ScrollContainer.isTouchingRef s' = false
      /\ ScrollContainer.throttleRefs s'
         = {| ScrollThrottle.lastThrottleTimeRef := t1 |}).
Proof.
  intros Hidle s' next. subst s'.
  unfold ScrollContainer.handleTouchStart. rewrite Hidle.
  unfold ScrollContainer.handleTouchEnd,
    ScrollContainer.MIN_TOUCH_DISTANCE, ScrollContainer.MAX_TOUCH_TIME.
  cbn [ScrollContainer.isTouchingRef ScrollContainer.touchStartYRef
       ScrollContainer.touchStartTimeRef ScrollContainer.set_isTouchingRef
       ScrollContainer.throttleRefs ScrollContainer.currentSection negb].
  split.
  - assert (Hnav : forall b y t,
               ScrollContainer.navigation
                 (ScrollContainer.set_isTouchingRef b
                    {| ScrollContainer.currentSection :=
                         ScrollContainer.currentSection s;
                       ScrollContainer.isScrollingRef := false;
                       ScrollContainer.scrollTimeoutRef :=
                         ScrollContainer.scrollTimeoutRef s;
                       ScrollContainer.lastScrollTimeRef :=
                         ScrollContainer.lastScrollTimeRef s;
                       ScrollContainer.sectionRefs :=
                         ScrollContainer.sectionRefs s;
                       ScrollContainer.touchStartYRef := y;
                       ScrollContainer.touchStartTimeRef := t;
                       ScrollContainer.isTouchingRef := true;
                       ScrollContainer.detectionRefs :=
                         ScrollContainer.detectionRefs s;
                       ScrollContainer.throttleRefs :=
                         ScrollContainer.throttleRefs s;
                       ScrollContainer.effects := ScrollContainer.effects s |})
               = ScrollContainer.navigation s).
    { intros b y t. unfold ScrollContainer.navigation. cbn.
      now rewrite Hidle. }
    intros [Hshort | Hslow].
    + settle_cmp. apply Hnav.
    + destruct (Z.abs (y0 - y1) <? 50); [apply Hnav|].
      settle_cmp. apply Hnav.
  - intros Hlong Hfast Hthr Hin [el Hel].
    rewrite Hthr. 
    assert (Hdir : (if y0 - y1 >? 0 then 1 else -1)
                   = (if y0 >? y1 then 1 else -1)).
    { rewrite !Z.gtb_ltb.
      destruct (Z.ltb_spec 0 (y0 - y1)), (Z.ltb_spec y1 y0);
        try reflexivity; lia. }
    rewrite Hdir. subst next.
    destruct (y0 >? y1); settle_cmp; cbn [andb];
      unfold ScrollContainer.scrollToSection;
      cbn [ScrollContainer.sectionRefs ScrollContainer.set_isTouchingRef];
      rewrite Hel; repeat split.
Qed.

Lemma swipe_navigates_witness :
  ScrollContainer.currentSection
    (ScrollContainer.handleTouchEnd (ScrollContainer.useScrollContainer 5)
       300 1200
       (ScrollContainer.handleTouchStart 400 1000
          (ScrollContainer.mount Scenario.fiveSections))) = 1
  /\ ScrollContainer.navigation
       (ScrollContainer.handleTouchEnd (ScrollContainer.useScrollContainer 5)
          380 1200
          (ScrollContainer.handleTouchStart 400 1000
             (ScrollContainer.mount Scenario.fiveSections)))
     = ScrollContainer.navigation
         (ScrollContainer.mount Scenario.fiveSections).
Proof.
  split.
  - refine (proj1 (proj2 (swipe_navigates
                            (ScrollContainer.useScrollContainer 5)
                            (ScrollContainer.mount Scenario.fiveSections)
                            400 1000 300 1200 eq_refl) _ _ _ _ _)).
    + cbn. lia.
    + lia.
    + reflexivity.
    + cbn. lia.
    + eexists. reflexivity.
  - refine (proj1 (swipe_navigates
                     (ScrollContainer.useScrollContainer 5)
                     (ScrollContainer.mount Scenario.fiveSections)
                     400 1000 380 1200 eq_refl) _).
    left. cbn. lia.
Defined.

(* ------------------------------------------------------------------ *)
(** ** More on the classifier *)
(* ------------------------------------------------------------------ *)

Section ClassifierMemory.
Import TouchpadDetection.

Lemma feed_cons (p : Props) (x : Z * Z) (xs : list (Z * Z)) (r : Refs) :
  feed p (x :: xs) r
  = (fst (detectInertia p (fst x) (snd x) r)
       :: fst (feed p xs (refs_of_sample x)),
     snd (feed p xs (refs_of_sample x))).
Proof.
  destruct x as [dy t]. cbn [feed fst snd].
  change (detectInertia p dy t r)
    with (fst (detectInertia p dy t r), refs_of_sample (dy, t)).
  cbn [fst]. now destruct (feed p xs (refs_of_sample (dy, t))).
Qed.

Lemma feed_length (p : Props) (xs : list (Z * Z)) :
  forall r, length (fst (feed p xs r)) = length xs.
Proof.
  induction xs as [|x xs IH]; intros r; [reflexivity|].
  rewrite feed_cons. cbn. now rewrite IH.
Qed.

End ClassifierMemory.

(** X13.  The classifier remembers exactly one sample.  Feeding a
    non-empty stream from two different memories gives one label per
    sample, the same labels from the second sample on, and the same final
    memory: only the first label can depend on what came before the
    stream. *)
Theorem classifier_one_sample_memory (p : TouchpadDetection.Props)
    (x : Z * Z) (xs : list (Z * Z)) (r r' : TouchpadDetection.Refs) :
  length (fst (TouchpadDetection.feed p (x :: xs) r)) = S (length xs)
  /\ tail (fst (TouchpadDetection.feed p (x :: xs) r))
     = tail (fst (TouchpadDetection.feed p (x :: xs) r'))
  /\ snd (TouchpadDetection.feed p (x :: xs) r)
     = snd (TouchpadDetection.feed p (x :: xs) r').
Proof.
  split; [apply feed_length|].
  rewrite !feed_cons. split; reflexivity.
Qed.

(** X14.  A sample with delta 0 wipes the direction memory: it is always
    labelled intentional itself, and whatever sample comes next, however
    soon and however small, is labelled intentional too. *)
Theorem zero_delta_resets_classifier (p : TouchpadDetection.Props)
    (r : TouchpadDetection.Refs) (t0 deltaY t1 : Z) :
  fst (TouchpadDetection.feed p [(0, t0); (deltaY, t1)] r) = [false; false].
Proof.
  rewrite !feed_cons. cbn [TouchpadDetection.feed fst snd].
  f_equal; [|f_equal].
  - destruct (fst (TouchpadDetection.detectInertia p 0 t0 r)) eqn:E;
      [|reflexivity].
    apply detectInertia_label in E. cbn in E. lia.
  - destruct (fst (TouchpadDetection.detectInertia p deltaY t1 _)) eqn:E;
      [|reflexivity].
    apply detectInertia_label in E. cbn in E. lia.
Qed.

(* ------------------------------------------------------------------ *)
(** ** More on the throttle *)
(* ------------------------------------------------------------------ *)

(** X15.  [remainingTime] is the exact wait: it is never negative, it is 0
    exactly when the gate is open, and when the gate is closed it is
    positive, adds up with the elapsed time to the effective duration,
    the gate is still closed one time-unit before [now + remainingTime]
    and open at [now + remainingTime]. *)
Theorem remaining_time_is_exact_wait (p : ScrollThrottle.Props)
    (isMomentum : bool) (now : Z) (r : ScrollThrottle.Refs) :
  let st := ScrollThrottle.getThrottleStatus p isMomentum now r in
  let wait := ScrollThrottle.remainingTime st in
  0 <= wait
  /\ (wait = 0 <-> ScrollThrottle.isThrottled p isMomentum now r = false)
  /\ ScrollThrottle.isThrottled p isMomentum (now + wait) r = false
  /\ (ScrollThrottle.isThrottled p isMomentum now r = true ->
      0 < wait
      /\ wait + ScrollThrottle.timeSinceLastThrottle st
         = ScrollThrottle.effectiveThrottle st
      /\ ScrollThrottle.isThrottled p isMomentum (now + wait - 1) r = true).
Proof.
  intros st wait. subst wait st.
  unfold ScrollThrottle.getThrottleStatus, ScrollThrottle.isThrottled.
  cbn [ScrollThrottle.remainingTime ScrollThrottle.timeSinceLastThrottle
       ScrollThrottle.effectiveThrottle].
  set (eff := if isMomentum then ScrollThrottle.momentumThrottle p
              else ScrollThrottle.normalThrottle p).
  set (last := ScrollThrottle.lastThrottleTimeRef r).
  rewrite !Z.ltb_lt, !Z.ltb_ge.
  repeat split; intros; lia.
Qed.

(** X16.  A reset throttle is not open for every duration: like a fresh
    one it is stamped 0, so whatever happened before the reset, the gate
    is closed exactly at the clock readings below the effective duration
    and open from there on. *)
Theorem reset_window (p : ScrollThrottle.Props) (isMomentum : bool)
    (now : Z) (r : ScrollThrottle.Refs) :
  ScrollThrottle.reset r = ScrollThrottle.initial
  /\ (ScrollThrottle.isThrottled p isMomentum now (ScrollThrottle.reset r)
      = true
      <-> now < (if isMomentum then ScrollThrottle.momentumThrottle p
                 else ScrollThrottle.normalThrottle p)).
Proof.
  split; [reflexivity|].
  unfold ScrollThrottle.isThrottled, ScrollThrottle.reset.
  cbn [ScrollThrottle.lastThrottleTimeRef].
  rewrite Z.ltb_lt. lia.
Qed.

(* ------------------------------------------------------------------ *)
(** ** The horizontal hook *)
(* ------------------------------------------------------------------ *)

Section Horizontal.
Import HorizontalScrollContainer.

Lemma horizontal_observer_unlocked (entries : list ScrollContainer.Entry)
    (s : State) :
  observerCallback entries (set_isScrollingRef false s)
  = set_isScrollingRef false s.
Proof.
  unfold observerCallback.
  induction entries as [|e rest IH]; [reflexivity|].
  cbn [fold_left]. destruct (ScrollContainer.inView e); exact IH.
Qed.

Lemma horizontal_observer_fold (entries : list ScrollContainer.Entry)
    (s : State) :
  observerCallback entries s
  = if existsb ScrollContainer.inView entries
    then set_isScrollingRef false s else s.
Proof.
  revert s; induction entries as [|e rest IH]; intros s; [reflexivity|].
  cbn [existsb]. unfold observerCallback. cbn [fold_left].
  destruct (ScrollContainer.inView e); cbn [orb].
  - apply horizontal_observer_unlocked.
  - apply IH.
Qed.

Lemma horizontal_wheel_locked (c : Config) (e : WheelEvent) (now : Z)
    (s : State) :
  isScrollingRef s = true ->
  isScrollingRef (throttledWheelHandler c e now s) = true
  /\ currentItem (throttledWheelHandler c e now s) = currentItem s
  /\ throttleRefs (throttledWheelHandler c e now s) = throttleRefs s
  /\ effects (throttledWheelHandler c e now s) = effects s.
Proof.
  intros Hlock. unfold throttledWheelHandler.
  destruct (horizontalDelta e =? 0); [now repeat split|].
  destruct (TouchpadDetection.detectInertia _ _ _ _) as [m d].
  destruct (negb _); [now repeat split|].
  cbn [set_detectionRefs isScrollingRef]. rewrite Hlock. now repeat split.
Qed.

Lemma horizontal_lock_step (c : Config) (ev : Event) (now : Z) (s : State) :
  isScrollingRef s = true ->
  confirms ev = false ->
  isScrollingRef (handle c ev now s) = true
  /\ (Trace.passive ev = true ->
      currentItem (handle c ev now s) = currentItem s
      /\ throttleRefs (handle c ev now s) = throttleRefs s
      /\ effects (handle c ev now s) = effects s).
Proof.
  intros Hlock Hquiet. destruct ev; cbn [handle Trace.passive].
  - destruct (horizontal_wheel_locked c e now s Hlock) as (H1 & H2).
    split; [exact H1 | intros _; exact H2].
  - unfold handleTouchStart. rewrite Hlock. split; [exact Hlock|].
    now repeat split.
  - split; [exact Hlock | now repeat split].
  - split; [|discriminate].
    unfold handleTouchEnd.
    destruct (negb _); [exact Hlock|].
    destruct (_ <? MIN_TOUCH_DISTANCE); [exact Hlock|].
    destruct (_ >? MAX_TOUCH_TIME); [exact Hlock|].
    destruct (ScrollThrottle.isThrottled _ _ _ _); [exact Hlock|].
    destruct (_ && _); [|exact Hlock].
    unfold scrollToItem. destruct (itemRefs _ !! _); [reflexivity|exact Hlock].
  - split; [exact Hlock | now repeat split].
  - cbn [confirms] in Hquiet. rewrite horizontal_observer_fold, Hquiet.
    split; [exact Hlock | discriminate].
  - split; [|discriminate].
    unfold scrollToItem. destruct (itemRefs _ !! _); [reflexivity|exact Hlock].
  - split; [|discriminate].
    unfold handleItemChange. destruct (itemRefs _ !! _); exact Hlock.
Qed.

End Horizontal.

(** X17.  Axis selection of the horizontal wheel handler.  The handler
    sees an event only through one number: [deltaX] when it is not 0,
    otherwise [deltaY] when Shift is held, otherwise 0.  When that number
    is 0 (a plain vertical wheel turn, for one) the whole state is
    returned as it is, classifier memory included; and in general the
    event is handled exactly like a purely horizontal event with that
    delta. *)
Theorem horizontal_axis_selection (c : HorizontalScrollContainer.Config)
    (e : HorizontalScrollContainer.WheelEvent) (now : Z)
    (s : HorizontalScrollContainer.State) :
  (HorizontalScrollContainer.deltaX e <> 0 ->
   HorizontalScrollContainer.horizontalDelta e
   = HorizontalScrollContainer.deltaX e)
  /\ (HorizontalScrollContainer.deltaX e = 0 ->
      HorizontalScrollContainer.horizontalDelta e
      = if HorizontalScrollContainer.shiftKey e
        then HorizontalScrollContainer.deltaY e else 0)
  /\ (HorizontalScrollContainer.horizontalDelta e = 0 ->
      HorizontalScrollContainer.throttledWheelHandler c e now s = s)
  /\ HorizontalScrollContainer.throttledWheelHandler c e now s
     = HorizontalScrollContainer.throttledWheelHandler c
         {| HorizontalScrollContainer.deltaX :=
              HorizontalScrollContainer.horizontalDelta e;
            HorizontalScrollContainer.deltaY := 0;
            HorizontalScrollContainer.shiftKey := false |} now s.
Proof.
  split; [|split; [|split]].
  - intros Hx. unfold HorizontalScrollContainer.horizontalDelta.
    settle_cmp. reflexivity.
  - intros Hx. unfold HorizontalScrollContainer.horizontalDelta.
    rewrite Hx. reflexivity.
  - intros H0. unfold HorizontalScrollContainer.throttledWheelHandler.
    now rewrite H0.
  - unfold HorizontalScrollContainer.throttledWheelHandler.
    replace (HorizontalScrollContainer.horizontalDelta
               {| HorizontalScrollContainer.deltaX :=
                    HorizontalScrollContainer.horizontalDelta e;
                  HorizontalScrollContainer.deltaY := 0;
                  HorizontalScrollContainer.shiftKey := false |})
      with (HorizontalScrollContainer.horizontalDelta e); [reflexivity|].
    unfold HorizontalScrollContainer.horizontalDelta at 2.
    cbn [HorizontalScrollContainer.deltaX HorizontalScrollContainer.shiftKey].
    destruct (Z.eqb_spec (HorizontalScrollContainer.horizontalDelta e) 0)
      as [-> | _]; reflexivity.
Qed.

(** X18.  The horizontal hook has neither safety timer nor watchdog: once
    the lock is held, no trace of events can release it unless it
    contains a completion report with an item in view.  Meanwhile wheel,
    touch-start, touch-move and touch-cancel events never change the
    current item, the throttle stamp or the host log. *)
Theorem horizontal_lock_needs_observer
    (c : HorizontalScrollContainer.Config)
    (trace : list (Z * HorizontalScrollContainer.Event))
    (s : HorizontalScrollContainer.State) :
  HorizontalScrollContainer.isScrollingRef s = true ->
  Forall (fun tev => HorizontalScrollContainer.confirms (snd tev) = false)
         trace ->
  HorizontalScrollContainer.isScrollingRef
    (HorizontalScrollContainer.run c trace s) = true
  /\ (Forall (fun tev => Trace.passive (snd tev) = true) trace ->
      HorizontalScrollContainer.currentItem
        (HorizontalScrollContainer.run c trace s)
      = HorizontalScrollContainer.currentItem s
      /\ HorizontalScrollContainer.throttleRefs
           (HorizontalScrollContainer.run c trace s)
         = HorizontalScrollContainer.throttleRefs s
      /\ HorizontalScrollContainer.effects
           (HorizontalScrollContainer.run c trace s)
         = HorizontalScrollContainer.effects s).
Proof.
  unfold HorizontalScrollContainer.run.
  revert s. induction trace as [|[now ev] rest IH]; intros s Hlock Hquiet.
  - split; [exact Hlock | now repeat split].
  - cbn [fold_left fst snd].
    apply Forall_cons in Hquiet as [Hev Hrest]. cbn [snd] in Hev.
    destruct (horizontal_lock_step c ev now s Hlock Hev) as [Hl Hp].
    destruct (IH _ Hl Hrest) as [Il Ip].
    split; [exact Il|].
    intros Hpassive. apply Forall_cons in Hpassive as [Pev Prest].
    cbn [snd] in Pev.
    destruct (Hp Pev) as (A & B & C). destruct (Ip Prest) as (A' & B' & C').
    repeat split; congruence.
Qed.

(** An item jump at instant 1000 whose completion is never reported:
    a full minute later wheel events are still locked out. *)
Lemma horizontal_lock_needs_observer_witness :
  let c := HorizontalScrollContainer.useHorizontalScrollContainer 5 true in
  let s := HorizontalScrollContainer.scrollToItem c 1 1000
             (HorizontalScrollContainer.mount Scenario.fiveSections) in
  let wheel d :=
    HorizontalScrollContainer.Wheel
      {| HorizontalScrollContainer.deltaX := d;
         HorizontalScrollContainer.deltaY := 0;
         HorizontalScrollContainer.shiftKey := false |} in
  let trace := [ (61000, wheel 80); (62000, wheel (-80));
                 (63000, HorizontalScrollContainer.TouchStart 10) ] in
  HorizontalScrollContainer.isScrollingRef
    (HorizontalScrollContainer.run c trace s) = true
  /\ HorizontalScrollContainer.currentItem
       (HorizontalScrollContainer.run c trace s) = 1.
Proof.
  intros c s wheel trace.
  assert (Hquiet : Forall (fun tev => HorizontalScrollContainer.confirms
                                        (snd tev) = false) trace).
  { repeat constructor. }
  assert (Hpassive : Forall (fun tev => Trace.passive (snd tev) = true)
                            trace).
  { repeat constructor. }
  destruct (horizontal_lock_needs_observer c trace s eq_refl Hquiet)
    as [Hlock Hrest].
  split; [exact Hlock|].
  exact (proj1 (Hrest Hpassive)).
Defined.

Section Agreement.




End Agreement.


(** Where the hooks part: the swipe of 50 was accepted at 1000 and its
    arrival observed; an inertia sample of 40 at 2300 is labelled
    momentum.  The vertical hook, with its window of 1200, moves on to
    section 2; the horizontal hook, with 1800, stays on item 1. *)
Example hooks_differ_in_momentum_gap :
  let s := ScrollContainer.unlock true Scenario.afterSwipe in
  ScrollContainer.wheelLabel (ScrollContainer.useScrollContainer 5)
                             40 2300 s = true
  /\ ScrollContainer.currentSection
       (ScrollContainer.throttledWheelHandler
          (ScrollContainer.useScrollContainer 5) 40 2300 s) = 2
  /\ HorizontalScrollContainer.currentItem
       (HorizontalScrollContainer.throttledWheelHandler
          (HorizontalScrollContainer.useHorizontalScrollContainer 5 true)
          {| HorizontalScrollContainer.deltaX := 40;
             HorizontalScrollContainer.deltaY := 0;
             HorizontalScrollContainer.shiftKey := false |} 2300
          (HorizontalScrollContainer.shared s)) = 1.
Proof. vm_compute. repeat split; reflexivity. Qed.


(* ------------------------------------------------------------------ *)
(** ** URL hash and keyboard of the routing example *)
(* ------------------------------------------------------------------ *)

Section Routing.
Import WithRoutingExample.

Lemma findIndexFrom_absent (ids : list string) (hash : string) :
  forall from, ~ In hash ids -> findIndexFrom from ids hash = -1.
Proof.
  induction ids as [|id rest IH]; intros from Hout; [reflexivity|].
  cbn [findIndexFrom].
  destruct (String.eqb_spec id hash) as [->|Hne].
  - exfalso. apply Hout. now left.
  - apply IH. intros Hin. apply Hout. now right.
Qed.

Lemma findIndexFrom_first (ids : list string) (hash : string) :
  forall from (i : nat),
    ids !! i = Some hash ->
    (forall j : nat, (j < i)%nat -> ids !! j <> Some hash) ->
    findIndexFrom from ids hash = from + Z.of_nat i.
Proof.
  induction ids as [|id rest IH]; intros from i Hi Hfirst; [discriminate|].
  cbn [findIndexFrom].
  destruct i as [|i].
  - cbn in Hi. injection Hi as ->. rewrite String.eqb_refl. lia.
  - destruct (String.eqb_spec id hash) as [->|Hne].
    + exfalso. apply (Hfirst 0%nat); [lia | reflexivity].
    + rewrite (IH (from + 1) i).
      * lia.
      * exact Hi.
      * intros j Hj. apply (Hfirst (S j)). lia.
Qed.

Lemma findIndex_distinct (ids : list string) (id : string) (i : nat) :
  NoDup ids -> ids !! i = Some id -> findIndex ids id = Z.of_nat i.
Proof.
  intros Hnd Hi. unfold findIndex.
  rewrite (findIndexFrom_first ids id 0 i Hi); [lia|].
  intros j Hj Hjid.
  pose proof (NoDup_lookup ids i j id Hnd Hi Hjid). lia.
Qed.

End Routing.

(** X20.  A location hash that names a section resolves to it.  Take the
    location hash as the browser reports it: one leading character
    followed by [id].  If [id] is the id of section [i] and of no earlier
    section (as for every section when the ids are pairwise distinct),
    the lookup answers [i], a pop-state event is the pop-state jump to
    section [i], and a page load is the instant URL jump to section
    [i]. *)
Theorem hash_resolves_to_section (ids : list string) (i : nat)
    (lead : Ascii.ascii) (id : string) (s : ScrollContainer.State) :
  ids !! i = Some id ->
  (NoDup ids \/ forall j : nat, (j < i)%nat -> ids !! j <> Some id) ->
  WithRoutingExample.findIndex ids
    (WithRoutingExample.slice1 (String lead id))
  = Z.of_nat i
  /\ WithRoutingExample.handlePopState ids (String lead id) s
     = ScrollContainer.handlePopStateNavigation (Z.of_nat i) s
  /\ WithRoutingExample.handleInitialHash ids (String lead id) s
     = ScrollContainer.handleURLSectionChange (Z.of_nat i)
         ScrollContainer.instant s.
Proof.
  intros Hi Hfirst.
  assert (H : WithRoutingExample.findIndex ids
                (WithRoutingExample.slice1 (String lead id))
              = Z.of_nat i).
  { cbn [WithRoutingExample.slice1].
    destruct Hfirst as [Hnd | Hfirst].
    - now apply findIndex_distinct.
    - unfold WithRoutingExample.findIndex.
      rewrite (findIndexFrom_first ids id 0 i Hi Hfirst). lia. }
  split; [exact H|].
  unfold WithRoutingExample.handlePopState,
    WithRoutingExample.handleInitialHash.
  rewrite H. settle_cmp. split; reflexivity.
Qed.

Lemma hash_resolves_to_section_witness :
  WithRoutingExample.handlePopState
    ["home"; "about"; "services"; "portfolio"; "contact"]%string
    "#services"%string (ScrollContainer.mount Scenario.fiveSections)
  = ScrollContainer.handlePopStateNavigation 2
      (ScrollContainer.mount Scenario.fiveSections).
Proof.
  refine (proj1 (proj2 (hash_resolves_to_section
                          ["home"; "about"; "services"; "portfolio";
                           "contact"]%string
                          2 (Ascii.ascii_of_nat 35) "services"%string
                          (ScrollContainer.mount Scenario.fiveSections)
                          eq_refl _))).
  left.
  repeat (constructor; [rewrite ?list_elem_of_In; cbn; intuition discriminate|]).
  constructor.
Defined.

(** X21.  A hash that names no section is ignored: when the part of the
    location hash after its first character is not among the section ids
    (an empty hash included, unless some section has the empty id), the
    lookup answers -1 and neither the pop-state handler nor the
    page-load handler changes anything. *)
Theorem unknown_hash_is_ignored (ids : list string) (locationHash : string)
    (s : ScrollContainer.State) :
  ~ In (WithRoutingExample.slice1 locationHash) ids ->
  WithRoutingExample.findIndex ids (WithRoutingExample.slice1 locationHash)
  = -1
  /\ WithRoutingExample.handlePopState ids locationHash s = s
  /\ WithRoutingExample.handleInitialHash ids locationHash s = s.
Proof.
  intros Hout.
  assert (H : WithRoutingExample.findIndex ids
                (WithRoutingExample.slice1 locationHash) = -1).
  { now apply findIndexFrom_absent. }
  split; [exact H|].
  unfold WithRoutingExample.handlePopState,
    WithRoutingExample.handleInitialHash.
  rewrite H. split; reflexivity.
Qed.

Lemma unknown_hash_is_ignored_witness :
  WithRoutingExample.handlePopState ["home"; "about"]%string ""%string
    (ScrollContainer.mount Scenario.fiveSections)
  = ScrollContainer.mount Scenario.fiveSections
  /\ WithRoutingExample.handlePopState ["home"; "about"]%string
       "#pricing"%string (ScrollContainer.mount Scenario.fiveSections)
     = ScrollContainer.mount Scenario.fiveSections.
Proof.
  split.
  - refine (proj1 (proj2 (unknown_hash_is_ignored ["home"; "about"]%string
                            ""%string _ _))).
    cbn. intuition discriminate.
  - refine (proj1 (proj2 (unknown_hash_is_ignored ["home"; "about"]%string
                            "#pricing"%string _ _))).
    cbn. intuition discriminate.
Defined.

(** X22.  Keyboard navigation of the routing example.  From a current
    section inside [0, n-1], with [n] the number of sections, a key press
    keeps the current section inside [0, n-1] and moves it by at most one;
    a key other than ArrowDown and ArrowUp changes nothing; and the arrow
    keys are not gated: ArrowDown below the last section, with an element
    attached to the next one, moves there even while the lock is held or
    the throttle window is open. *)
Theorem keyboard_navigation (ids : list string) (key : string) (now : Z)
    (s : ScrollContainer.State) :
  0 <= ScrollContainer.currentSection s < Z.of_nat (length ids) ->
  let s' := WithRoutingExample.handleKeyDown ids key now s in
  0 <= ScrollContainer.currentSection s' < Z.of_nat (length ids)
  /\ Z.abs (ScrollContainer.currentSection s'
            - ScrollContainer.currentSection s) <= 1
  /\ (key <> "ArrowDown"%string -> key <> "ArrowUp"%string -> s' = s)
  /\ (key = "ArrowDown"%string ->
      ScrollContainer.currentSection s < Z.of_nat (length ids) - 1 ->
      is_Some (ScrollContainer.sectionRefs s
               !! (ScrollContainer.currentSection s + 1)) ->
      ScrollContainer.currentSection s' = ScrollContainer.currentSection s + 1
      /\ ScrollContainer.isScrollingRef s' = true).
Proof.
  intros Hin s'. subst s'.
  assert (Hcases :
    WithRoutingExample.handleKeyDown ids key now s = s
    \/ (ScrollContainer.currentSection s < Z.of_nat (length ids) - 1
        /\ WithRoutingExample.handleKeyDown ids key now s
           = ScrollContainer.scrollToSection
               (ScrollContainer.currentSection s + 1) now s)
    \/ (0 < ScrollContainer.currentSection s
        /\ WithRoutingExample.handleKeyDown ids key now s
           = ScrollContainer.scrollToSection
               (ScrollContainer.currentSection s - 1) now s)).
  { unfold WithRoutingExample.handleKeyDown.
    destruct (String.eqb key "ArrowDown"); cbn [andb].
    - destruct (Z.ltb_spec (ScrollContainer.currentSection s)
                  (Z.of_nat (length ids) - 1)); [now right; left|].
      destruct (String.eqb key "ArrowUp"); cbn [andb]; [|now left].
      rewrite Z.gtb_ltb.
      destruct (Z.ltb_spec 0 (ScrollContainer.currentSection s));
        [now right; right | now left].
    - destruct (String.eqb key "ArrowUp"); cbn [andb]; [|now left].
      rewrite Z.gtb_ltb.
      destruct (Z.ltb_spec 0 (ScrollContainer.currentSection s));
        [now right; right | now left]. }
  assert (Hmove :
    ScrollContainer.currentSection
      (WithRoutingExample.handleKeyDown ids key now s)
    = ScrollContainer.currentSection s
    \/ (ScrollContainer.currentSection s < Z.of_nat (length ids) - 1
        /\ ScrollContainer.currentSection
             (WithRoutingExample.handleKeyDown ids key now s)
           = ScrollContainer.currentSection s + 1)
    \/ (0 < ScrollContainer.currentSection s
        /\ ScrollContainer.currentSection
             (WithRoutingExample.handleKeyDown ids key now s)
           = ScrollContainer.currentSection s - 1)).
  { destruct Hcases as [-> | [[Hlt ->] | [Hpos ->]]]; [now left | |].
    - destruct (currentSection_scrollToSection
                  (ScrollContainer.currentSection s + 1) now s) as [E|E];
        rewrite E; [now left | right; left; now split].
    - destruct (currentSection_scrollToSection
                  (ScrollContainer.currentSection s - 1) now s) as [E|E];
        rewrite E; [now left | right; right; now split]. }
  split; [|split; [|split]].
  - destruct Hmove as [-> | [[? ->] | [? ->]]]; lia.
  - destruct Hmove as [-> | [[? ->] | [? ->]]]; lia.
  - intros Hd Hu. unfold WithRoutingExample.handleKeyDown.
    rewrite (proj2 (String.eqb_neq key "ArrowDown") Hd).
    rewrite (proj2 (String.eqb_neq key "ArrowUp") Hu).
    reflexivity.
  - intros -> Hlt [el Hel]. unfold WithRoutingExample.handleKeyDown.
    rewrite String.eqb_refl. settle_cmp. cbn [andb].
    rewrite (scrollToSection_registered _ now s el Hel).
    split; reflexivity.
Qed.

Lemma keyboard_navigation_witness :
  ScrollContainer.currentSection
    (WithRoutingExample.handleKeyDown
       ["home"; "about"; "services"; "portfolio"; "contact"]%string
       "ArrowDown"%string 1200 Scenario.afterSwipe) = 2.
Proof.
  refine (proj1 (proj2 (proj2 (proj2
            (keyboard_navigation
               ["home"; "about"; "services"; "portfolio"; "contact"]%string
               "ArrowDown"%string 1200 Scenario.afterSwipe _)))
            eq_refl _ _)).
  - vm_compute. split; [discriminate | reflexivity].
  - vm_compute. reflexivity.
  - eexists. reflexivity.
Defined.

(* ------------------------------------------------------------------ *)
(** ** Symmetries *)
(* ------------------------------------------------------------------ *)

Section Symmetries.
Import ScrollContainer.
Import Trace.

Lemma detectInertia_mirror (p : TouchpadDetection.Props) (deltaY now : Z)
    (r : TouchpadDetection.Refs) :
  TouchpadDetection.detectInertia p (- deltaY) now (mirror r)
  = (fst (TouchpadDetection.detectInertia p deltaY now r),
     mirror (snd (TouchpadDetection.detectInertia p deltaY now r))).
Proof.
  unfold TouchpadDetection.detectInertia, mirror; cbn.
  rewrite Z.abs_opp, Z.sgn_opp.
  replace (- TouchpadDetection.lastDirectionRef r =? 0)
    with (TouchpadDetection.lastDirectionRef r =? 0)
    by (split_cmp; lia).
  replace (- Z.sgn deltaY =? - TouchpadDetection.lastDirectionRef r)
    with (Z.sgn deltaY =? TouchpadDetection.lastDirectionRef r)
    by (split_cmp; lia).
  reflexivity.
Qed.

Lemma add_sub_shift (a b k : Z) : a + k - (b + k) = a - b.
Proof. lia. Qed.

Lemma leb_shift (a b k : Z) : (a + k <=? b + k) = (a <=? b).
Proof. split_cmp; lia. Qed.

Lemma detectInertia_shift (p : TouchpadDetection.Props) (deltaY now k : Z)
    (r : TouchpadDetection.Refs) :
  TouchpadDetection.detectInertia p deltaY (now + k) (shiftRefs k r)
  = (fst (TouchpadDetection.detectInertia p deltaY now r),
     shiftRefs k (snd (TouchpadDetection.detectInertia p deltaY now r))).
Proof.
  unfold TouchpadDetection.detectInertia, shiftRefs; cbn.
  now rewrite add_sub_shift.
Qed.

Lemma isThrottled_shift (p : ScrollThrottle.Props) (m : bool) (now k : Z)
    (s : State) :
  ScrollThrottle.isThrottled p m (now + k) (throttleRefs (shiftState k s))
  = ScrollThrottle.isThrottled p m now (throttleRefs s).
Proof.
  unfold ScrollThrottle.isThrottled; cbn. now rewrite add_sub_shift.
Qed.

Lemma scrollToSection_shift (i now k : Z) (s : State) :
  scrollToSection i (now + k) (shiftState k s)
  = shiftState k (scrollToSection i now s).
Proof.
  unfold scrollToSection. cbn [shiftState sectionRefs].
  destruct (sectionRefs s !! i); [|reflexivity].
  unfold shiftState, SAFETY_TIMEOUT; cbn.
  f_equal. f_equal. lia.
Qed.

Lemma fireDueTimer_shift (now k : Z) (s : State) :
  fireDueTimer (now + k) (shiftState k s) = shiftState k (fireDueTimer now s).
Proof.
  unfold fireDueTimer. cbn [shiftState scrollTimeoutRef].
  destruct (scrollTimeoutRef s) as [due|] eqn:E; [|reflexivity].
  rewrite leb_shift. destruct (due <=? now); [reflexivity|].
  unfold shiftState. now rewrite E.
Qed.

Lemma handle_shift (c : Config) (ev : Event) (now k : Z) (s : State) :
  handle c ev (now + k) (shiftState k s) = shiftState k (handle c ev now s).
Proof.
  destruct ev; cbn [handle].
  - unfold throttledWheelHandler.
    change (detectionRefs (shiftState k s))
      with (shiftRefs k (detectionRefs s)).
    rewrite detectInertia_shift.
    destruct (TouchpadDetection.detectInertia _ deltaY now _) as [m d];
      cbn [fst snd].
    change (set_detectionRefs (shiftRefs k d) (shiftState k s))
      with (shiftState k (set_detectionRefs d s)).
    generalize (set_detectionRefs d s). intros a.
    destruct (negb _); [reflexivity|].
    change (isScrollingRef (shiftState k a)) with (isScrollingRef a).
    destruct (isScrollingRef a); [reflexivity|].
    rewrite isThrottled_shift.
    destruct (ScrollThrottle.isThrottled _ _ _ _); [reflexivity|].
    change (currentSection (shiftState k a)) with (currentSection a).
    destruct (_ && _); [|reflexivity].
    apply scrollToSection_shift.
  - unfold handleTouchStart. cbn [shiftState isScrollingRef].
    destruct (isScrollingRef s); reflexivity.
  - reflexivity.
  - unfold handleTouchEnd, MIN_TOUCH_DISTANCE, MAX_TOUCH_TIME.
    change (isTouchingRef (shiftState k s)) with (isTouchingRef s).
    change (touchStartYRef (shiftState k s)) with (touchStartYRef s).
    change (touchStartTimeRef (shiftState k s))
      with (touchStartTimeRef s + k).
    change (set_isTouchingRef false (shiftState k s))
      with (shiftState k (set_isTouchingRef false s)).
    generalize (set_isTouchingRef false s). intros a.
    destruct (negb _); [reflexivity|].
    destruct (_ <? 50); [reflexivity|].
    rewrite add_sub_shift.
    destruct (_ >? 800); [reflexivity|].
    rewrite isThrottled_shift.
    destruct (ScrollThrottle.isThrottled _ _ _ _); [reflexivity|].
    change (currentSection (shiftState k a)) with (currentSection a).
    destruct (_ && _); [|reflexivity].
    apply scrollToSection_shift.
  - reflexivity.
  - rewrite !observer_fold. destruct (existsb _ _); reflexivity.
  - unfold checkStuckState, STUCK_THRESHOLD.
    cbn [shiftState isScrollingRef lastScrollTimeRef].
    rewrite add_sub_shift. destruct (_ && _); reflexivity.
  - apply scrollToSection_shift.
  - unfold handlePopStateNavigation. cbn [shiftState sectionRefs].
    destruct (sectionRefs s !! sectionIndex); reflexivity.
  - unfold handleURLSectionChange. cbn [shiftState sectionRefs].
    destruct (sectionRefs s !! sectionIndex); reflexivity.
  - reflexivity.
Qed.

End Symmetries.

(** X23.  The classifier does not tell up from down: reversing the sign of
    every delta of a stream, and the remembered direction with it, gives
    the same sequence of labels. *)
Theorem classifier_mirror_symmetric (p : TouchpadDetection.Props)
    (samples : list (Z * Z)) (r : TouchpadDetection.Refs) :
  fst (TouchpadDetection.feed p
         (map (fun sample => (- fst sample, snd sample)) samples)
         (Trace.mirror r))
  = fst (TouchpadDetection.feed p samples r).
Proof.
  revert r. induction samples as [|[dy t] rest IH]; intros r; [reflexivity|].
  cbn [map fst snd]. rewrite !feed_cons. cbn [fst snd].
  rewrite detectInertia_mirror. cbn [fst]. f_equal.
  specialize (IH (TouchpadDetection.refs_of_sample (dy, t))).
  rewrite <- IH. f_equal. f_equal.
  unfold Trace.mirror, TouchpadDetection.refs_of_sample; cbn.
  now rewrite Z.abs_opp, Z.sgn_opp.
Qed.

(** X24.  Only time differences matter.  Move every instant stored in a
    state (transition start, safety-timer deadline, touch start,
    classifier and throttle stamps) and every instant of a trace by the
    same amount [k]: delivering the moved trace to the moved state gives
    the original result, moved by [k].  In particular the sections
    visited, the lock and the host log are the same on both clocks. *)
Theorem clock_shift_invariance (c : ScrollContainer.Config) (k : Z)
    (trace : list (Z * ScrollContainer.Event)) (s : ScrollContainer.State) :
  ScrollContainer.run c (Trace.shiftTrace k trace) (Trace.shiftState k s)
  = Trace.shiftState k (ScrollContainer.run c trace s).
Proof.
  unfold ScrollContainer.run, Trace.shiftTrace.
  revert s. induction trace as [|[now ev] rest IH]; intros s; [reflexivity|].
  cbn [map fold_left fst snd].
  rewrite <- IH. f_equal.
  unfold ScrollContainer.deliver; cbn [fst snd].
  now rewrite fireDueTimer_shift, handle_shift.
Qed.
